(** * Huawei K4203 SMS client: the command engine and its XML codec

    A shallow embedding of [huaweisms.py] (the library) and of the
    decoder of [huawei-sms.py] (the earlier script), with the properties
    of the codec, the request builder and the response interpreter.

    Python values are a tagged union; a [dict] is an association list in
    insertion order (its keys are distinct: [dict_set] never adds a key
    twice); exceptions are an error type threaded through a small state
    monad whose state is the trace of HTTP calls issued so far.  The XML
    serializer and parser of [xml.etree.ElementTree] and the network are
    not code of the repository: they are variables of the sections that
    embed the engine. *)

From Stdlib Require Import List String Ascii ZArith Bool Lia DecimalString.
Import ListNotations.
Open Scope string_scope.
Open Scope list_scope.
Open Scope Z_scope.

(* ================================================================= *)
(** ** Python values *)

Unset Elimination Schemes.
Inductive value : Type :=
| PyNone
| PyBool (b : bool)
| PyInt (z : Z)
| PyStr (s : string)
| PyList (l : list value)
| PyDict (d : list (string * value)).
Set Elimination Schemes.

(** Induction on values, through the lists and mappings they nest. *)
Section ValueInduction.
Variable P : value -> Prop.
Hypothesis P_none : P PyNone.
Hypothesis P_bool : forall b, P (PyBool b).
Hypothesis P_int : forall z, P (PyInt z).
Hypothesis P_str : forall s, P (PyStr s).
Hypothesis P_list : forall l, Forall P l -> P (PyList l).
Hypothesis P_dict : forall d, Forall (fun kv => P (snd kv)) d -> P (PyDict d).

Fixpoint value_ind (v : value) : P v :=
  match v with
  | PyNone => P_none
  | PyBool b => P_bool b
  | PyInt z => P_int z
  | PyStr s => P_str s
  | PyList l =>
      P_list l
        ((fix go (l : list value) : Forall P l :=
            match l with
            | [] => Forall_nil P
            | x :: l' => Forall_cons x (value_ind x) (go l')
            end) l)
  | PyDict d =>
      P_dict d
        ((fix go (d : list (string * value))
            : Forall (fun kv => P (snd kv)) d :=
            match d with
            | [] => Forall_nil _
            | kv :: d' =>
                Forall_cons kv
                  (match kv return P (snd kv) with (_, x) => value_ind x end)
                  (go d')
            end) d)
  end.
End ValueInduction.

(** A Python [dict] (and an [OrderedDict]): entries in insertion order. *)
Definition dict := list (string * value).

Fixpoint dict_get (d : dict) (k : string) : option value :=
  match d with
  | [] => None
  | (k', v) :: d' => if String.eqb k' k then Some v else dict_get d' k
  end.

(** [k in d] *)
Definition dict_in (k : string) (d : dict) : bool :=
  match dict_get d k with Some _ => true | None => false end.

(** [d[k] = v]: an existing key keeps its position, a new key goes last. *)
Fixpoint dict_set (d : dict) (k : string) (v : value) : dict :=
  match d with
  | [] => [(k, v)]
  | (k', v') :: d' =>
      if String.eqb k' k then (k', v) :: d' else (k', v') :: dict_set d' k v
  end.

(** [d.update(other)] *)
Definition dict_update (d other : dict) : dict :=
  fold_left (fun acc kv => dict_set acc (fst kv) (snd kv)) other d.

(** Truthiness, as [if v:] tests it. *)
Definition truthy (v : value) : bool :=
  match v with
  | PyNone => false
  | PyBool b => b
  | PyInt z => negb (z =? 0)
  | PyStr s => negb (String.eqb s "")
  | PyList l => match l with [] => false | _ => true end
  | PyDict d => match d with [] => false | _ => true end
  end.

(* ----------------------------------------------------------------- *)
(** *** [str] and [repr] *)

Definition squote : ascii := ascii_of_nat 39.
Definition dquote : ascii := ascii_of_nat 34.
Definition backslash : ascii := ascii_of_nat 92.

Definition hex_digit (n : nat) : ascii :=
  if Nat.ltb n 10 then ascii_of_nat (48 + n) else ascii_of_nat (87 + n).

Fixpoint string_mem (c : ascii) (s : string) : bool :=
  match s with
  | EmptyString => false
  | String c' s' => Ascii.eqb c c' || string_mem c s'
  end.

(** One character of [repr] of a [str] delimited by [q]; a character is
    its code point, below 256. *)
Definition repr_char (q c : ascii) : string :=
  let n := nat_of_ascii c in
  if Ascii.eqb c q || Ascii.eqb c backslash then String backslash (String c "")
  else if Nat.eqb n 9 then String backslash "t"
  else if Nat.eqb n 10 then String backslash "n"
  else if Nat.eqb n 13 then String backslash "r"
  else if Nat.ltb n 32 || Nat.eqb n 127
          || (Nat.leb 128 n && Nat.leb n 160) || Nat.eqb n 173
  then String backslash
         (String "x" (String (hex_digit (Nat.div n 16))
                        (String (hex_digit (Nat.modulo n 16)) "")))
  else String c "".

Fixpoint repr_chars (q : ascii) (s : string) : string :=
  match s with
  | EmptyString => ""
  | String c s' => (repr_char q c ++ repr_chars q s')%string
  end.

(** [repr(s)]: single quotes, unless [s] holds a single quote and no
    double quote. *)
Definition repr_str (s : string) : string :=
  let q := if string_mem squote s && negb (string_mem dquote s)
           then dquote else squote in
  String q (repr_chars q s ++ String q "").

Fixpoint join (sep : string) (l : list string) : string :=
  match l with
  | [] => ""
  | [x] => x
  | x :: l' => (x ++ sep ++ join sep l')%string
  end.

Fixpoint py_repr (v : value) : string :=
  match v with
  | PyNone => "None"
  | PyBool true => "True"
  | PyBool false => "False"
  | PyInt z => NilZero.string_of_int (Z.to_int z)
  | PyStr s => repr_str s
  | PyList l => ("[" ++ join ", " (map py_repr l) ++ "]")%string
  | PyDict d =>
      ("{" ++ join ", "
         (map (fun kv => let '(k, x) := kv in
                         (repr_str k ++ ": " ++ py_repr x)%string) d)
       ++ "}")%string
  end.

(** [str(v)] *)
Definition py_str (v : value) : string :=
  match v with
  | PyStr s => s
  | _ => py_repr v
  end.

(* ----------------------------------------------------------------- *)
(** *** Exceptions *)

Inductive exn : Type :=
| APIError
| HTTPStatus
| KeyError (k : string)
| TypeError
| AttributeError
| ParseError
| ConnectionError
| ValueError.

Inductive result (A : Type) : Type :=
| Ok (a : A)
| Raise (e : exn).
Arguments Ok {A} a.
Arguments Raise {A} e.

(** [v[k]] for a string [k] *)
Definition getitem (v : value) (k : string) : result value :=
  match v with
  | PyDict d => match dict_get d k with
                | Some x => Ok x
                | None => Raise (KeyError k)
                end
  | _ => Raise TypeError
  end.

(** [v.get(k)] *)
Definition py_get (v : value) (k : string) : result value :=
  match v with
  | PyDict d => match dict_get d k with
                | Some x => Ok x
                | None => Ok PyNone
                end
  | _ => Raise AttributeError
  end.

(** [v[k] = x] for a string [k] *)
Definition setitem (v : value) (k : string) (x : value) : result value :=
  match v with
  | PyDict d => Ok (PyDict (dict_set d k x))
  | _ => Raise TypeError
  end.

(** [s + v] for a [str] [s] *)
Definition str_add (s : string) (v : value) : result string :=
  match v with
  | PyStr t => Ok (s ++ t)%string
  | _ => Raise TypeError
  end.

(* ================================================================= *)
(** ** Element trees *)

(** An [xml.etree.ElementTree.Element], as far as the program reads and
    writes it: tag, text and children (it sets and reads no attribute and
    no tail). *)
Unset Elimination Schemes.
Inductive Element : Type :=
| mkElement (tag : string) (text : option string) (children : list Element).
Set Elimination Schemes.

Definition tag (e : Element) : string :=
  match e with mkElement t _ _ => t end.
Definition text (e : Element) : option string :=
  match e with mkElement _ x _ => x end.
Definition getchildren (e : Element) : list Element :=
  match e with mkElement _ _ c => c end.

(** [tree.text] as a Python value: [None] when the element has no text. *)
Definition text_value (x : option string) : value :=
  match x with Some s => PyStr s | None => PyNone end.

(* ================================================================= *)
(** ** The codec of [huaweisms.py] *)

(** The body of the loop of [internal_iter]: [sub] is [accum[tree.tag]],
    [t] is [each.tag] and [result] is [internal_iter(each, {})]. *)
Definition add_child (sub : dict) (t : string) (result : dict) : dict :=
  match dict_get sub t with
  | Some old =>
      let lst := match old with PyList l => l | _ => [old] end in
      match dict_get result t with
      | Some v => dict_set sub t (PyList (lst ++ [v])%list)
      | None => dict_set sub t (PyList lst)
      end
  | None => dict_update sub result
  end.

(** [internal_iter(tree, accum)]; the guard [tree is None] never fires on
    an element of a parsed document. *)
Fixpoint internal_iter (tree : Element) (accum : dict) : dict :=
  match tree with
  | mkElement t x children =>
      match children with
      | [] => dict_set accum t (text_value x)
      | _ :: _ =>
          dict_set accum t
            (PyDict (fold_left
                       (fun sub each =>
                          add_child sub (tag each) (internal_iter each []))
                       children []))
      end
  end.

Definition etree_to_dict (element_tree : Element) : dict :=
  internal_iter element_tree [].

(** The child element [dict_to_xml] appends for the entry [key: v]. *)
Fixpoint child_of (key : string) (v : value) : Element :=
  match v with
  | PyDict d =>
      mkElement key None
        (map (fun kv => let '(k, x) := kv in child_of k x) d)
  | _ => mkElement key (Some (py_str v)) []
  end.

(** [dict_to_xml(tag, d)] *)
Definition dict_to_xml (t : string) (d : dict) : Element :=
  mkElement t None (map (fun kv => let '(k, x) := kv in child_of k x) d).

(* ================================================================= *)
(** ** The decoder of [huawei-sms.py] *)

Module Script.

(** [{t.tag: {x.tag: etree_to_dict(x) for x in t.getchildren()} or t.text}] *)
Fixpoint etree_to_dict (t : Element) : dict :=
  match t with
  | mkElement tg x children =>
      let d := fold_left
                 (fun acc c => dict_set acc (tag c) (PyDict (etree_to_dict c)))
                 children [] in
      [(tg, match d with [] => text_value x | _ :: _ => PyDict d end)]
  end.

End Script.

(* ================================================================= *)
(** ** The token pattern of [get_token] *)

Definition newline : ascii := ascii_of_nat 10.

(** The class [\s] of a [str] pattern, on code points below 256. *)
Definition is_space (c : ascii) : bool :=
  let n := nat_of_ascii c in
  (Nat.leb 9 n && Nat.leb n 13) || (Nat.leb 28 n && Nat.leb n 32)
  || Nat.eqb n 133 || Nat.eqb n 160.

Fixpoint skip_spaces (s : string) : string :=
  match s with
  | EmptyString => s
  | String c s' => if is_space c then skip_spaces s' else s
  end.

(** The characters before the first newline; [None] without a newline. *)
Fixpoint line_of (s : string) : option string :=
  match s with
  | EmptyString => None
  | String c s' =>
      if Ascii.eqb c newline then Some ""
      else option_map (String c) (line_of s')
  end.

(** The characters before the last double quote; [None] without one. *)
Fixpoint before_last_quote (s : string) : option string :=
  match s with
  | EmptyString => None
  | String c s' =>
      match before_last_quote s' with
      | Some r => Some (String c r)
      | None => if Ascii.eqb c dquote then Some "" else None
      end
  end.

Fixpoint drop (n : nat) (s : string) : string :=
  match n, s with
  | S n', String _ s' => drop n' s'
  | _, _ => s
  end.

Definition marker : string := "STR_AJAX_VALUE".

(** The pattern after its lookbehind, matched at the head of [s]: blanks,
    an equals sign, one blank, a double quote, group 1 (greedy, so up to
    the last double quote of the line), the rest of the line and its
    newline.  The result is group 1. *)
Definition match_here (s : string) : option string :=
  match skip_spaces s with
  | String e (String sp (String q rest)) =>
      if Ascii.eqb e "="%char && is_space sp && Ascii.eqb q dquote then
        match line_of rest with
        | Some line => before_last_quote line
        | None => None
        end
      else None
  | _ => None
  end.

(** [re.search(pattern, s)], leftmost match first: group 1 of the match,
    [None] when there is none. *)
Fixpoint re_search_token (s : string) : option string :=
  match s with
  | EmptyString => None
  | String _ s' =>
      if prefix marker s then
        match match_here (drop (String.length marker) s) with
        | Some g => Some g
        | None => re_search_token s'
        end
      else re_search_token s'
  end.

(* ================================================================= *)
(** ** HTTP calls and the monad of the engine *)

Inductive requests_fun : Type := requests_get | requests_post.

(** One call of [requests.get] or [requests.post]. *)
Record HttpCall : Type := mkCall {
  call_fun : requests_fun;
  call_url : string;
  call_headers : option value;
  call_data : option string
}.

(** What the program reads of a [requests.Response]: [status_code] and
    [text]. *)
Record Response : Type := mkResponse {
  status_code : Z;
  response_text : string
}.

(** A computation that may issue HTTP calls and may raise: from the trace
    of the calls issued so far to a result and the trace after it. *)
Definition M (A : Type) : Type := list HttpCall -> result A * list HttpCall.

Definition ret {A} (a : A) : M A := fun tr => (Ok a, tr).
Definition raise {A} (e : exn) : M A := fun tr => (Raise e, tr).
Definition lift {A} (r : result A) : M A := fun tr => (r, tr).
Definition bind {A B} (c : M A) (k : A -> M B) : M B :=
  fun tr =>
    match c tr with
    | (Ok a, tr') => k a tr'
    | (Raise e, tr') => (Raise e, tr')
    end.

Definition rbind {A B} (r : result A) (k : A -> result B) : result B :=
  match r with
  | Ok a => k a
  | Raise e => Raise e
  end.

Notation "x <- c ;; k" := (bind c (fun x => k))
  (at level 61, c at next level, right associativity).
Notation "x <-? r ;; k" := (rbind r (fun x => k))
  (at level 61, r at next level, right associativity).

(* ================================================================= *)
(** ** [HuaweiAPI] *)

Record HuaweiAPI : Type := mkAPI {
  cfg_dict : value;
  common_headers : value;
  error_codes : value;
  base_url : string;
  api_dict : dict
}.

(** [HuaweiAPI.__init__], from the value [yaml.load] returned. *)
Definition HuaweiAPI_init (cfg : value) : result HuaweiAPI :=
  common <-? getitem cfg "common" ;;
  headers <-? getitem common "headers" ;;
  common' <-? getitem cfg "common" ;;
  codes <-? getitem common' "error-codes" ;;
  host <-? getitem headers "Host" ;;
  url <-? str_add "http://" host ;;
  match cfg with
  | PyDict items =>
      Ok (mkAPI cfg headers codes url
            (filter (fun kv => negb (String.eqb (fst kv) "common-headers")) items))
  | _ => Raise AttributeError
  end.

(** [list_requests] *)
Definition list_requests (self : HuaweiAPI) : list string :=
  map fst (api_dict self).

(** An [APIRequest]: the function, the URL and the keyword arguments
    ([headers] and [data], both absent for a GET). *)
Record APIRequest : Type := mkAPIRequest {
  req_fun : requests_fun;
  url : string;
  kw_headers : option value;
  kw_data : option string
}.

(** One item of a sequence given to [OrderedDict], unpacked as a key and
    a value: a list of two items, a string of two characters or a mapping
    of two keys (iterating a mapping gives its keys).  An item of another
    length raises [ValueError], an item that cannot be iterated raises
    [TypeError]. *)
Definition unpack_pair (item : value) : result (value * value) :=
  match item with
  | PyList [a; b] => Ok (a, b)
  | PyList _ => Raise ValueError
  | PyStr (String a (String b EmptyString)) =>
      Ok (PyStr (String a ""), PyStr (String b ""))
  | PyStr _ => Raise ValueError
  | PyDict [(a, _); (b, _)] => Ok (PyStr a, PyStr b)
  | PyDict _ => Raise ValueError
  | _ => Raise TypeError
  end.

(** [self[key] = value] for one item.  A key that is a list or a mapping
    cannot be hashed, which raises [TypeError].  A key that is [None], a
    boolean or a number the code accepts, and the mappings of this model,
    keyed by strings, cannot hold: the model stops there with
    [TypeError], and the statements that depend on it exclude such keys
    ([string_keyed]). *)
Definition add_pair (acc : dict) (item : value) : result dict :=
  kv <-? unpack_pair item ;;
  match fst kv with
  | PyStr k => Ok (dict_set acc k (snd kv))
  | _ => Raise TypeError
  end.

(** The items in order, up to the first that raises. *)
Fixpoint add_pairs (items : list value) (acc : dict) : result dict :=
  match items with
  | [] => Ok acc
  | item :: rest => acc' <-? add_pair acc item ;; add_pairs rest acc'
  end.

(** [OrderedDict(v)]: a copy of a mapping; from a sequence, the mapping
    of its pairs; from a string, the same over its characters, so the
    empty mapping from the empty string and [ValueError] from any other;
    [TypeError] from a value that cannot be iterated. *)
Definition OrderedDict (v : value) : result dict :=
  match v with
  | PyDict d => Ok d
  | PyList items => add_pairs items []
  | PyStr EmptyString => Ok []
  | PyStr _ => Raise ValueError
  | _ => Raise TypeError
  end.

(** The body of the loop over [kwargs] in [make_request]. *)
Definition apply_override (request : dict) (kv : string * value) : dict :=
  let '(key, v) := kv in
  if dict_in key request then
    match v with
    | PyDict _ => dict_set request key v
    | _ => dict_set request key (PyStr (py_str v))
    end
  else request.

Arguments apply_override : simpl never.

Definition xml_declaration : string := "<?xml version='1.0' encoding='UTF-8'?>".

Definition is_str (v : value) (s : string) : bool :=
  match v with
  | PyStr t => String.eqb t s
  | _ => false
  end.

Section Engine.

(** [ET.tostring] and [ET.fromstring] of the standard library ([None]
    for a text the parser refuses), and the network: the answer to a
    call, given the calls issued before it ([None] when it fails). *)
Variable ET_tostring : Element -> string.
Variable ET_fromstring : string -> option Element.
Variable http : list HttpCall -> HttpCall -> option Response.

(** A call of [requests]: the answer, or [ConnectionError] when the
    network gives none; either way the call was issued. *)
Definition send (c : HttpCall) : M Response :=
  fun tr =>
    (match http tr c with
     | Some r => Ok r
     | None => Raise ConnectionError
     end, tr ++ [c]).

(** [APIRequest.run] *)
Definition run (r : APIRequest) : M Response :=
  send (mkCall (req_fun r) (url r) (kw_headers r) (kw_data r)).

(** [get_token] *)
Definition get_token (self : HuaweiAPI) : M string :=
  vendor <- send (mkCall requests_get (base_url self ++ "/html/js/vendor.js")
                    None None) ;;
  if status_code vendor =? 200 then
    match re_search_token (response_text vendor) with
    | Some token => ret token
    | None => raise AttributeError
    end
  else raise HTTPStatus.

(** [make_request]; the result [None] is Python's, returned when neither
    branch of the dispatch on the method is taken. *)
Definition make_request (self : HuaweiAPI) (name : string) (kwargs : dict)
  : M (option APIRequest) :=
  match dict_get (api_dict self) name with
  | None => raise APIError
  | Some cmd_dict =>
      url_v <- lift (getitem cmd_dict "url") ;;
      url <- lift (str_add (base_url self) url_v) ;;
      let headers := common_headers self in
      method <- lift (getitem cmd_dict "method") ;;
      if is_str method "post" then
        request_v <- lift (getitem cmd_dict "request") ;;
        request <- lift (OrderedDict request_v) ;;
        referer <- lift (py_get cmd_dict "Referer") ;;
        headers <- (if truthy referer
                    then lift (r <-? getitem cmd_dict "Referer" ;;
                               setitem headers "Referer" r)
                    else ret headers) ;;
        token <- get_token self ;;
        let request := dict_set request "token" (PyStr token) in
        let request := fold_left apply_override kwargs request in
        let xml_str := ET_tostring (dict_to_xml "request" request) in
        let xml_str := (xml_declaration ++ xml_str)%string in
        ret (Some (mkAPIRequest requests_post url (Some headers) (Some xml_str)))
      else if is_str method "get" then
        ret (Some (mkAPIRequest requests_get url None None))
      else ret None
  end.

(** [response_to_dict] *)
Definition response_to_dict (r : Response) : result dict :=
  tree <-? match ET_fromstring (response_text r) with
           | Some tree => Ok tree
           | None => Raise ParseError
           end ;;
  Ok (etree_to_dict tree).

(** [run_command]; calling [run] on [None] raises [AttributeError]. *)
Definition run_command (self : HuaweiAPI) (name : string) (kwargs : dict)
  : M (Z * dict) :=
  req <- make_request self name kwargs ;;
  match req with
  | None => raise AttributeError
  | Some r =>
      response <- run r ;;
      body <- lift (response_to_dict response) ;;
      ret (status_code response, body)
  end.

(** [get_inbox] *)
Definition get_inbox (self : HuaweiAPI) : M (list value) :=
  response <- run_command self "sms-list" [] ;;
  if fst response =? 200 then
    resp <- lift (getitem (PyDict (snd response)) "response") ;;
    message_dict <- lift (py_get resp "Messages") ;;
    match message_dict with
    | PyDict md =>
        let messages := match dict_get md "Message" with
                        | Some m => m
                        | None => PyNone
                        end in
        match messages with
        | PyList l => ret l
        | _ => ret [messages]
        end
    | _ => ret []
    end
  else raise HTTPStatus.

End Engine.

(* ================================================================= *)
(** ** Vocabulary of the statements *)

(** [internal_iter(each, {})[each.tag]]: the decoded value of an element. *)
Definition value_of (e : Element) : value :=
  match dict_get (etree_to_dict e) (tag e) with
  | Some v => v
  | None => PyNone
  end.

(** The children named [t], in document order. *)
Definition tagged (t : string) (cs : list Element) : list Element :=
  filter (fun c => String.eqb (tag c) t) cs.

(** The entry a parent holds for a group of children of one name: none
    for no child, the child's value for one, the sequence of the values
    for more. *)
Definition entry_of (group : list Element) : option value :=
  match group with
  | [] => None
  | [c] => Some (value_of c)
  | _ :: _ :: _ => Some (PyList (map value_of group))
  end.

(** The loop of [internal_iter] over the children, from [sub]. *)
Definition decode_children (cs : list Element) (sub : dict) : dict :=
  fold_left (fun sub each => add_child sub (tag each) (internal_iter each []))
    cs sub.

Fixpoint nodupb (l : list string) : bool :=
  match l with
  | [] => true
  | x :: l' => negb (existsb (String.eqb x) l') && nodupb l'
  end.

(** The structures whose encoding decodes to themselves: a string, or a
    mapping that is not empty, holds no key twice and holds such
    structures only. *)
Fixpoint sendable (v : value) : bool :=
  match v with
  | PyStr _ => true
  | PyDict d =>
      match d with [] => false | _ :: _ => true end
      && nodupb (map fst d)
      && forallb (fun kv => let '(_, x) := kv in sendable x) d
  | _ => false
  end.

(** What the loop over [kwargs] stores for an override [v]. *)
Definition override_value (v : value) : value :=
  match v with
  | PyDict _ => v
  | _ => PyStr (py_str v)
  end.

(** The call [get_token] issues. *)
Definition token_fetch (self : HuaweiAPI) : HttpCall :=
  mkCall requests_get (base_url self ++ "/html/js/vendor.js") None None.

(** The field mapping a POST encodes (lines 83 to 94 of [make_request]):
    the defaults, then the token, then the overrides. *)
Definition built_fields (defaults kwargs : dict) (token : string) : dict :=
  fold_left apply_override kwargs (dict_set defaults "token" (PyStr token)).

(** [kwargs] without the key [k]. *)
Definition without (k : string) (kwargs : dict) : dict :=
  filter (fun kv => negb (String.eqb (fst kv) k)) kwargs.

Definition is_APIError {A} (r : result A) : bool :=
  match r with
  | Raise APIError => true
  | _ => false
  end.

(** The [request] entry of a command's definition. *)
Definition request_entry (self : HuaweiAPI) (name : string) : option value :=
  match dict_get (api_dict self) name with
  | Some cmd => match getitem cmd "request" with
                | Ok v => Some v
                | Raise _ => None
                end
  | None => None
  end.

(** The default field mapping of a command, as [OrderedDict] builds it
    from the [request] entry: empty when the command or the entry is
    missing or [OrderedDict] raises. *)
Definition default_fields (self : HuaweiAPI) (name : string) : dict :=
  match request_entry self name with
  | Some v => match OrderedDict v with
              | Ok d => d
              | Raise _ => []
              end
  | None => []
  end.

(** No pair of a sequence has a key that is [None], a boolean or a
    number. *)
Definition string_keyed (v : value) : bool :=
  match v with
  | PyList items =>
      forallb (fun item =>
                 match unpack_pair item with
                 | Ok (PyNone, _) | Ok (PyBool _, _) | Ok (PyInt _, _) => false
                 | _ => true
                 end) items
  | _ => true
  end.

(** The [request] entry of the command, if any, is keyed by strings. *)
Definition string_keyed_fields (self : HuaweiAPI) (name : string) : bool :=
  match request_entry self name with
  | Some v => string_keyed v
  | None => true
  end.

(* ================================================================= *)
(** ** A catalog and a device for the examples *)

(** The two documents of the repeated-tag example: one [b] under [a],
    and two. *)
Definition doc_a_b1 : Element :=
  mkElement "a" None [mkElement "b" (Some "1") []].
Definition doc_a_b1_b2 : Element :=
  mkElement "a" None [mkElement "b" (Some "1") []; mkElement "b" (Some "2") []].

(** A configuration as [yaml.load] returns it: the shared section, three
    POST commands, a GET command and a command whose method is neither. *)
Definition demo_cfg : value :=
  PyDict
    [("common",
      PyDict [("headers",
               PyDict [("Host", PyStr "192.168.9.1");
                       ("Content-Type", PyStr "text/xml")]);
              ("error-codes", PyDict [("100003", PyStr "No rights")])]);
     ("sms",
      PyDict [("url", PyStr "/api/sms/send-sms");
              ("method", PyStr "post");
              ("Referer", PyStr "http://192.168.9.1/html/smsinbox.html");
              ("request",
               PyDict [("Index", PyInt (-1));
                       ("Phones", PyDict [("Phone", PyStr "")]);
                       ("Sca", PyStr "");
                       ("Content", PyStr "");
                       ("Length", PyInt 0);
                       ("Reserved", PyInt 1);
                       ("Date", PyStr "")])]);
     ("sms-list",
      PyDict [("url", PyStr "/api/sms/sms-list");
              ("method", PyStr "post");
              ("request",
               PyDict [("PageIndex", PyInt 1);
                       ("ReadCount", PyInt 20);
                       ("BoxType", PyInt 1)])]);
     ("sms-delete",
      PyDict [("url", PyStr "/api/sms/delete-sms");
              ("method", PyStr "post");
              ("request", PyDict [("Index", PyStr "")])]);
     ("sms-count",
      PyDict [("url", PyStr "/api/sms/sms-count");
              ("method", PyStr "get")]);
     ("reboot",
      PyDict [("url", PyStr "/api/device/control");
              ("method", PyStr "put")])].

(** A configuration whose command gives its fields as a sequence of
    pairs. *)
Definition pairs_cfg : value :=
  PyDict
    [("common",
      PyDict [("headers", PyDict [("Host", PyStr "192.168.9.1")]);
              ("error-codes", PyDict [])]);
     ("sms-delete",
      PyDict [("url", PyStr "/api/sms/delete-sms");
              ("method", PyStr "post");
              ("request",
               PyList [PyList [PyStr "Index"; PyStr ""];
                       PyList [PyStr "Reserved"; PyInt 1]])])].

Definition pairs_api : HuaweiAPI :=
  match HuaweiAPI_init pairs_cfg with
  | Ok self => self
  | Raise _ => mkAPI PyNone PyNone PyNone "" []
  end.

Definition demo_api : HuaweiAPI :=
  match HuaweiAPI_init demo_cfg with
  | Ok self => self
  | Raise _ => mkAPI PyNone PyNone PyNone "" []
  end.

(** [vendor.js]: one line, [var STR_AJAX_VALUE = ] and the token in
    double quotes. *)
Definition vendor_js : string :=
  "var STR_AJAX_VALUE = " ++ String dquote ("k4203token" ++ String dquote (String ";"%char (String newline ""))).

(** A device that serves [vendor.js] and answers every other call with
    one status and one body. *)
Definition demo_http (status : Z) (body : string)
  : list HttpCall -> HttpCall -> option Response :=
  fun _ c =>
    if String.eqb (call_url c) "http://192.168.9.1/html/js/vendor.js"
    then Some (mkResponse 200 vendor_js)
    else Some (mkResponse status body).

Definition escape_cdata (s : string) : string :=
  (fix go (s : string) : string :=
     match s with
     | EmptyString => ""
     | String c s' =>
         ((if Ascii.eqb c "&"%char then "&amp;"
           else if Ascii.eqb c "<"%char then "&lt;"
           else if Ascii.eqb c ">"%char then "&gt;"
           else String c "") ++ go s')%string
     end) s.

(** [ET.tostring] on elements of ASCII text without attributes: an
    element with neither text nor children is written in the short form. *)
Fixpoint tostring_plain (e : Element) : string :=
  match e with
  | mkElement t x children =>
      let body := match x with Some s => escape_cdata s | None => "" end in
      match body, children with
      | EmptyString, [] => ("<" ++ t ++ " />")%string
      | _, _ =>
          ("<" ++ t ++ ">" ++ body
           ++ String.concat "" (map tostring_plain children)
           ++ "</" ++ t ++ ">")%string
      end
  end.

Definition error_text : string :=
  "<error><code>100003</code><message></message></error>".
Definition error_doc : Element :=
  mkElement "error" None
    [mkElement "code" (Some "100003") []; mkElement "message" None []].

Definition empty_response_text : string := "<response></response>".
Definition empty_response_doc : Element := mkElement "response" None [].

Definition inbox_text : string :=
  "<response><Count>2</Count><Messages><Message><Index>40007</Index><Content>Test</Content></Message><Message><Index>40008</Index><Content>Again</Content></Message></Messages></response>".
Definition inbox_doc : Element :=
  mkElement "response" None
    [mkElement "Count" (Some "2") [];
     mkElement "Messages" None
       [mkElement "Message" None
          [mkElement "Index" (Some "40007") [];
           mkElement "Content" (Some "Test") []];
        mkElement "Message" None
          [mkElement "Index" (Some "40008") [];
           mkElement "Content" (Some "Again") []]]].

(** [ET.fromstring] on the documents of the examples; any other text is
    taken as malformed. *)
Definition demo_fromstring (s : string) : option Element :=
  if String.eqb s error_text then Some error_doc
  else if String.eqb s empty_response_text then Some empty_response_doc
  else if String.eqb s inbox_text then Some inbox_doc
  else None.

(** Closes a branch that fails with the error of the step named by [E]. *)
Ltac not_api E lem :=
  match type of E with
  | ?t = Raise ?e =>
      let H := fresh in
      assert (H : is_APIError t = false) by apply lem;
      rewrite E in H; cbn [fst]; destruct e; (discriminate H || reflexivity)
  end.

(* ================================================================= *)
(** ** The other operations of [HuaweiAPI] *)

(** [get_error], for a code that is a string. *)
Definition get_error (self : HuaweiAPI) (code : string) : result value :=
  match error_codes self with
  | PyDict d => match dict_get d code with
                | Some x => Ok x
                | None => Ok (PyStr "No such error code.")
                end
  | _ => Raise AttributeError
  end.

Section Operations.

Variable ET_tostring : Element -> string.
Variable ET_fromstring : string -> option Element.
Variable http : list HttpCall -> HttpCall -> option Response.

(** The reading of the clock in [send_sms]:
    [datetime.now().replace(microsecond=0).isoformat()]. *)
Variable date_str : string.

(** [send_sms], for a [content] that is a string. *)
Definition send_sms (self : HuaweiAPI) (content : string) (number : value)
  : M (Z * dict) :=
  let length := Z.of_nat (String.length content) + 1 in
  run_command ET_tostring ET_fromstring http self "sms"
    [("Content", PyStr content);
     ("Length", PyInt length);
     ("Date", PyStr date_str);
     ("Phones", PyDict [("Phone", number)])].

(** The loop of [clear_inbox] over the messages left, [responses] being
    the answers collected so far. *)
Fixpoint clear_loop (self : HuaweiAPI) (inbox : list value)
         (responses : list (Z * dict)) : M (list (Z * dict)) :=
  match inbox with
  | [] => ret responses
  | message :: rest =>
      idx <- lift (py_get message "Index") ;;
      response <- run_command ET_tostring ET_fromstring http self
                    "sms-delete" [("Index", idx)] ;;
      clear_loop self rest (responses ++ [response])
  end.

(** [clear_inbox] *)
Definition clear_inbox (self : HuaweiAPI) : M (list (Z * dict)) :=
  inbox <- get_inbox ET_tostring ET_fromstring http self ;;
  clear_loop self inbox [].

End Operations.

(* ================================================================= *)
(** ** The engine of [huawei-sms.py] *)

Module ScriptEngine.

Section Engine.

Variable ET_tostring : Element -> string.
Variable ET_fromstring : string -> option Element.
Variable http : list HttpCall -> HttpCall -> option Response.

(** The module-level [get_token]: the address of the device is fixed. *)
Definition get_token : M string :=
  vendor <- send http (mkCall requests_get
                         "http://192.168.9.1/html/js/vendor.js" None None) ;;
  if status_code vendor =? 200 then
    match re_search_token (response_text vendor) with
    | Some token => ret token
    | None => raise AttributeError
    end
  else raise HTTPStatus.

Definition make_request (self : HuaweiAPI) (name : string) (kwargs : dict)
  : M (option APIRequest) :=
  match dict_get (api_dict self) name with
  | None => raise APIError
  | Some cmd_dict =>
      url_v <- lift (getitem cmd_dict "url") ;;
      url <- lift (str_add (base_url self) url_v) ;;
      let headers := common_headers self in
      method <- lift (getitem cmd_dict "method") ;;
      if is_str method "post" then
        request_v <- lift (getitem cmd_dict "request") ;;
        request <- lift (OrderedDict request_v) ;;
        referer <- lift (py_get cmd_dict "Referer") ;;
        headers <- (if truthy referer
                    then lift (r <-? getitem cmd_dict "Referer" ;;
                               setitem headers "Referer" r)
                    else ret headers) ;;
        token <- get_token ;;
        let request := dict_set request "token" (PyStr token) in
        let request := fold_left apply_override kwargs request in
        let xml_str := ET_tostring (dict_to_xml "request" request) in
        let xml_str := (xml_declaration ++ xml_str)%string in
        ret (Some (mkAPIRequest requests_post url (Some headers) (Some xml_str)))
      else if is_str method "get" then
        ret (Some (mkAPIRequest requests_get url None None))
      else ret None
  end.

Definition response_to_dict (r : Response) : result dict :=
  tree <-? match ET_fromstring (response_text r) with
           | Some tree => Ok tree
           | None => Raise ParseError
           end ;;
  Ok (Script.etree_to_dict tree).

Definition run_command (self : HuaweiAPI) (name : string) (kwargs : dict)
  : M (Z * dict) :=
  req <- make_request self name kwargs ;;
  match req with
  | None => raise AttributeError
  | Some r =>
      response <- run http r ;;
      body <- lift (response_to_dict response) ;;
      ret (status_code response, body)
  end.

End Engine.

End ScriptEngine.

(* ================================================================= *)
(** ** More vocabulary *)

(** The names of a list, each at its first occurrence. *)
Fixpoint distinct_tags (l : list string) : list string :=
  match l with
  | [] => []
  | x :: l' => x :: filter (fun y => negb (String.eqb y x)) (distinct_tags l')
  end.

(** The last child named [k]. *)
Definition last_tagged (k : string) (cs : list Element) : option Element :=
  match rev (tagged k cs) with
  | [] => None
  | c :: _ => Some c
  end.

(** What a value comes back as from its encoding: a mapping with its
    values so treated ([None] when it is empty), anything else as the
    string [str] gives. *)
Fixpoint stringify (v : value) : value :=
  match v with
  | PyDict d =>
      match d with
      | [] => PyNone
      | _ :: _ => PyDict (map (fun kv => let '(k, x) := kv in (k, stringify x)) d)
      end
  | _ => PyStr (py_str v)
  end.

(** No mapping of the value holds a key twice. *)
Fixpoint distinct_keys (v : value) : bool :=
  match v with
  | PyDict d =>
      nodupb (map fst d)
      && forallb (fun kv => let '(_, x) := kv in distinct_keys x) d
  | _ => true
  end.

Fixpoint string_forallb (p : ascii -> bool) (s : string) : bool :=
  match s with
  | EmptyString => true
  | String c s' => p c && string_forallb p s'
  end.

(** No occurrence of the marker starts inside [pre], when [s] follows. *)
Fixpoint no_marker_start (pre s : string) : bool :=
  match pre with
  | EmptyString => true
  | String c p => negb (prefix marker (pre ++ s)) && no_marker_start p s
  end.

(** The text of a marker assignment: blanks, the equals sign, one blank,
    the quoted [tok], the rest of the line and what follows it. *)
Definition assignment (ws : string) (sp : ascii) (tok tail rest : string)
  : string :=
  (ws ++ String "="%char
          (String sp
             (String dquote
                (tok ++ String dquote (tail ++ String newline rest)))))%string.

Definition is_Raise {A} (r : result A) : bool :=
  match r with
  | Raise _ => true
  | Ok _ => false
  end.

(** A value that is a mapping. *)
Definition is_mapping (v : value) : bool :=
  match v with
  | PyDict _ => true
  | _ => false
  end.

(** The headers of a POST request: the common headers [h], with the
    [Referer] of the command's definition when it has one that is true. *)
Definition request_headers (h : dict) (cmd : value) : value :=
  match py_get cmd "Referer" with
  | Ok r => if truthy r then PyDict (dict_set h "Referer" r) else PyDict h
  | Raise _ => PyDict h
  end.

(** [message.get('Index')] of a message that is a mapping. *)
Definition index_of (message : value) : value :=
  match py_get message "Index" with
  | Ok idx => idx
  | Raise _ => PyNone
  end.

(** The outcome of a call and of decoding its answer, as [run_command]
    returns it. *)
Definition answer (ET_fromstring : string -> option Element)
           (reply : option Response) : result (Z * dict) :=
  match reply with
  | None => Raise ConnectionError
  | Some resp =>
      match ET_fromstring (response_text resp) with
      | None => Raise ParseError
      | Some tree => Ok (status_code resp, etree_to_dict tree)
      end
  end.

(** The POST of [sms-delete] that [clear_inbox] issues for a message. *)
Definition delete_call (ET_tostring : Element -> string) (self : HuaweiAPI)
           (u : string) (h : dict) (cmd : value) (defaults : dict)
           (message : value) (token : string) : HttpCall :=
  mkCall requests_post (base_url self ++ u)
    (Some (request_headers h cmd))
    (Some (xml_declaration
           ++ ET_tostring
                (dict_to_xml "request"
                   (built_fields defaults [("Index", index_of message)] token)))%string).

(** A device that serves [vendor.js], lists the inbox of two messages and
    answers every delete with the status 500 and an error document. *)
Definition inbox_then_errors : list HttpCall -> HttpCall -> option Response :=
  fun _ c =>
    if String.eqb (call_url c) "http://192.168.9.1/html/js/vendor.js"
    then Some (mkResponse 200 vendor_js)
    else if String.eqb (call_url c) "http://192.168.9.1/api/sms/sms-list"
    then Some (mkResponse 200 inbox_text)
    else Some (mkResponse 500 error_text).

(** An answer to [sms-list] that holds a count and no [Messages], and a
    parser that knows it beside the other examples. *)
Definition count_only_text : string := "<response><Count>0</Count></response>".
Definition count_only_doc : Element :=
  mkElement "response" None [mkElement "Count" (Some "0") []].

Definition count_fromstring (s : string) : option Element :=
  if String.eqb s count_only_text then Some count_only_doc
  else demo_fromstring s.

(** An answer to [sms-list] whose [Messages] element holds no
    [Message], and a parser that knows it beside the other examples. *)
Definition odd_inbox_text : string :=
  "<response><Count>0</Count><Messages><Count>0</Count></Messages></response>".
Definition odd_inbox_doc : Element :=
  mkElement "response" None
    [mkElement "Count" (Some "0") [];
     mkElement "Messages" None [mkElement "Count" (Some "0") []]].

Definition odd_fromstring (s : string) : option Element :=
  if String.eqb s odd_inbox_text then Some odd_inbox_doc
  else demo_fromstring s.

(** What [clear_inbox] collects and issues for the messages of [inbox]
    from the trace [tr]: for each message in order, the token fetched at
    that point, the POST of [sms-delete] built from it, and as result the
    status and decoded body of the answer to that POST. *)
Fixpoint deleted (ET_tostring : Element -> string)
         (ET_fromstring : string -> option Element)
         (http : list HttpCall -> HttpCall -> option Response)
         (self : HuaweiAPI) (u : string) (h : dict) (cmd : value)
         (defaults : dict) (inbox : list value) (tr : list HttpCall)
         (responses : list (Z * dict)) (calls : list HttpCall) : Prop :=
  match inbox, responses with
  | [], [] => calls = []
  | message :: rest, response :: more =>
      exists token rest_calls,
        fst (get_token http self tr) = Ok token /\
        answer ET_fromstring
          (http (tr ++ [token_fetch self])
             (delete_call ET_tostring self u h cmd defaults message token))
        = Ok response /\
        calls = token_fetch self
                :: delete_call ET_tostring self u h cmd defaults message token
                :: rest_calls /\
        deleted ET_tostring ET_fromstring http self u h cmd defaults rest
          (tr ++ [token_fetch self;
                  delete_call ET_tostring self u h cmd defaults message token])
          more rest_calls
  | _, _ => False
  end.

(* ================================================================= *)
(** ** Mappings *)

Lemma dict_get_set_same (d : dict) k v : dict_get (dict_set d k v) k = Some v.
Proof.
  induction d as [|[k' v'] d IH]; simpl.
  - now rewrite String.eqb_refl.
  - destruct (String.eqb k' k) eqn:E; simpl; rewrite E; auto.
Qed.

Lemma dict_get_set_other (d : dict) k k' v :
  k' <> k -> dict_get (dict_set d k v) k' = dict_get d k'.
Proof.
  intros Hne. induction d as [|[k0 v0] d IH]; simpl.
  - destruct (String.eqb_spec k k'); congruence.
  - destruct (String.eqb_spec k0 k) as [->|Hk]; simpl.
    + destruct (String.eqb_spec k k'); congruence.
    + now rewrite IH.
Qed.

Lemma dict_get_None_notin (d : dict) k :
  dict_get d k = None <-> ~ In k (map fst d).
Proof.
  induction d as [|[k' v'] d IH]; simpl.
  - tauto.
  - destruct (String.eqb_spec k' k) as [->|Hk].
    + split; [discriminate | tauto].
    + rewrite IH. tauto.
Qed.

Lemma dict_in_true (d : dict) k : dict_in k d = true <-> In k (map fst d).
Proof.
  unfold dict_in. destruct (dict_get d k) eqn:E.
  - split; auto. intros _.
    destruct (in_dec string_dec k (map fst d)) as [H|H]; auto.
    apply dict_get_None_notin in H. congruence.
  - split; [discriminate|]. intros H. apply dict_get_None_notin in E. tauto.
Qed.

Lemma dict_in_false (d : dict) k : dict_in k d = false <-> ~ In k (map fst d).
Proof.
  rewrite <- dict_in_true. destruct (dict_in k d); split; congruence.
Qed.

Lemma dict_set_new (d : dict) k v :
  dict_get d k = None -> dict_set d k v = (d ++ [(k, v)])%list.
Proof.
  induction d as [|[k' v'] d IH]; simpl; auto.
  destruct (String.eqb k' k); [discriminate|].
  intros H. now rewrite IH.
Qed.

Lemma keys_dict_set (d : dict) k v :
  map fst (dict_set d k v) =
  (map fst d ++ (if dict_in k d then [] else [k]))%list.
Proof.
  unfold dict_in. induction d as [|[k' v'] d IH]; simpl; auto.
  destruct (String.eqb k' k) eqn:E; simpl.
  - now rewrite app_nil_r.
  - now rewrite IH.
Qed.

Lemma keys_dict_set_in (d : dict) k v :
  dict_in k d = true -> map fst (dict_set d k v) = map fst d.
Proof.
  intros H. rewrite keys_dict_set, H. apply app_nil_r.
Qed.

Lemma dict_in_keys (d d' : dict) k :
  map fst d = map fst d' -> dict_in k d = dict_in k d'.
Proof.
  intros H. destruct (dict_in k d') eqn:E.
  - apply dict_in_true. rewrite H. now apply dict_in_true.
  - apply dict_in_false. rewrite H. now apply dict_in_false.
Qed.

(* ================================================================= *)
(** ** The decoder of [huaweisms.py] *)

Lemma internal_iter_nil (e : Element) :
  internal_iter e [] = [(tag e, value_of e)].
Proof.
  unfold value_of, etree_to_dict.
  destruct e as [t x [|c cs]]; simpl; now rewrite String.eqb_refl.
Qed.

Lemma value_of_leaf t x : value_of (mkElement t x []) = text_value x.
Proof. unfold value_of. simpl. now rewrite String.eqb_refl. Qed.

Lemma value_of_node t x c cs :
  value_of (mkElement t x (c :: cs)) = PyDict (decode_children (c :: cs) []).
Proof. unfold value_of. simpl. now rewrite String.eqb_refl. Qed.

Lemma value_of_not_list (e : Element) l : value_of e <> PyList l.
Proof.
  destruct e as [t x [|c cs]].
  - rewrite value_of_leaf. destruct x; discriminate.
  - rewrite value_of_node. discriminate.
Qed.

Lemma etree_to_dict_value (e : Element) :
  etree_to_dict e = [(tag e, value_of e)].
Proof. apply internal_iter_nil. Qed.

Lemma tagged_app t (p q : list Element) :
  tagged t (p ++ q) = (tagged t p ++ tagged t q)%list.
Proof. apply filter_app. Qed.

(** One step of the loop keeps the entries in line with the children
    read so far. *)
Lemma add_child_entries (sub : dict) (p : list Element) (c : Element) :
  (forall t, dict_get sub t = entry_of (tagged t p)) ->
  forall t, dict_get (add_child sub (tag c) (internal_iter c [])) t
            = entry_of (tagged t (p ++ [c])).
Proof.
  intros Hinv t. rewrite internal_iter_nil, tagged_app.
  unfold add_child. simpl tagged.
  assert (Hres : dict_get [(tag c, value_of c)] (tag c) = Some (value_of c))
    by (simpl; now rewrite String.eqb_refl).
  rewrite Hres.
  destruct (String.eqb_spec (tag c) t) as [<-|Hne].
  - rewrite (Hinv (tag c)).
    destruct (tagged (tag c) p) as [|c0 [|c1 g]] eqn:Eg; simpl entry_of;
      cbv beta iota.
    + unfold dict_update. simpl. now rewrite dict_get_set_same.
    + rewrite dict_get_set_same.
      destruct (value_of c0) eqn:E0; try reflexivity.
      exfalso. exact (value_of_not_list c0 _ E0).
    + rewrite dict_get_set_same. simpl. do 4 f_equal.
      now rewrite map_app.
  - rewrite app_nil_r, <- (Hinv t).
    destruct (dict_get sub (tag c)).
    + apply dict_get_set_other. congruence.
    + unfold dict_update. simpl. apply dict_get_set_other. congruence.
Qed.

Lemma decode_children_entries (cs p : list Element) (sub : dict) :
  (forall t, dict_get sub t = entry_of (tagged t p)) ->
  forall t, dict_get (decode_children cs sub) t = entry_of (tagged t (p ++ cs)).
Proof.
  revert p sub. induction cs as [|c cs IH]; intros p sub Hinv t.
  - rewrite app_nil_r. apply Hinv.
  - simpl. replace (p ++ c :: cs)%list with ((p ++ [c]) ++ cs)%list
      by (now rewrite <- app_assoc).
    apply IH. now apply add_child_entries.
Qed.

(** The tie-break rule of the decoder, for every parent element. *)
Lemma decode_tie_break t x c cs :
  exists sub,
    etree_to_dict (mkElement t x (c :: cs)) = [(t, PyDict sub)] /\
    value_of (mkElement t x (c :: cs)) = PyDict sub /\
    forall k, dict_get sub k = entry_of (tagged k (c :: cs)).
Proof.
  exists (decode_children (c :: cs) []). split; [|split].
  - rewrite etree_to_dict_value. simpl tag. now rewrite value_of_node.
  - apply value_of_node.
  - intros k. apply (decode_children_entries (c :: cs) [] []). reflexivity.
Qed.

(* ================================================================= *)
(** ** The encoder and the round trip *)

Lemma tag_child_of k v : tag (child_of k v) = k.
Proof. destruct v; reflexivity. Qed.

Lemma child_of_dict k d : child_of k (PyDict d) = dict_to_xml k d.
Proof. reflexivity. Qed.

Lemma nodupb_NoDup l : nodupb l = true -> NoDup l.
Proof.
  induction l as [|x l IH]; simpl; intros H; constructor.
  - apply andb_true_iff in H. destruct H as [H _].
    intros Hin. apply negb_true_iff in H.
    assert (existsb (String.eqb x) l = true); [|congruence].
    apply existsb_exists. exists x. split; auto. apply String.eqb_refl.
  - apply IH. apply andb_true_iff in H. tauto.
Qed.

(** Children of distinct names are appended one by one. *)
Lemma decode_children_distinct (d : dict) (acc : dict) :
  NoDup (map fst acc ++ map fst d) ->
  Forall (fun kv => value_of (child_of (fst kv) (snd kv)) = snd kv) d ->
  decode_children (map (fun kv => let '(k, x) := kv in child_of k x) d) acc
  = (acc ++ d)%list.
Proof.
  revert acc. induction d as [|[k v] d IH]; intros acc Hnd Hall.
  - simpl. now rewrite app_nil_r.
  - simpl map in *. unfold decode_children. simpl fold_left.
    fold (decode_children
            (map (fun kv => let '(k, x) := kv in child_of k x) d)).
    inversion Hall as [|? ? Hv Hall']; subst. simpl in Hv.
    rewrite internal_iter_nil, tag_child_of, Hv.
    assert (Hk : dict_get acc k = None).
    { apply dict_get_None_notin. intros Hin.
      apply NoDup_remove_2 in Hnd. apply Hnd. apply in_or_app. now left. }
    unfold add_child. rewrite Hk. unfold dict_update. simpl fold_left.
    rewrite (dict_set_new acc k v Hk).
    rewrite IH; auto.
    + now rewrite <- app_assoc.
    + rewrite map_app. simpl. now rewrite <- app_assoc.
Qed.

Lemma roundtrip_value (v : value) :
  forall k, sendable v = true -> value_of (child_of k v) = v.
Proof.
  induction v as [| | | s | l _ | d IH] using value_ind;
    intros k Hs; try discriminate.
  - simpl. apply value_of_leaf.
  - simpl in Hs. destruct d as [|[k0 v0] d]; [discriminate|].
    apply andb_true_iff in Hs. destruct Hs as [Hs Hall].
    apply andb_true_iff in Hs. destruct Hs as [_ Hnd].
    rewrite child_of_dict. unfold dict_to_xml.
    change (map (fun kv => let '(k1, x) := kv in child_of k1 x) ((k0, v0) :: d))
      with (child_of k0 v0
            :: map (fun kv => let '(k1, x) := kv in child_of k1 x) d).
    rewrite value_of_node.
    change (child_of k0 v0
            :: map (fun kv => let '(k1, x) := kv in child_of k1 x) d)
      with (map (fun kv => let '(k1, x) := kv in child_of k1 x) ((k0, v0) :: d)).
    rewrite decode_children_distinct; auto.
    + simpl app. now apply nodupb_NoDup.
    + rewrite forallb_forall in Hall. rewrite Forall_forall in *.
      intros [k1 v1] Hin. simpl. apply (IH (k1, v1) Hin).
      apply (Hall (k1, v1) Hin).
Qed.

(* ================================================================= *)
(** ** Overrides *)

Lemma apply_override_keys (r : dict) kv :
  map fst (apply_override r kv) = map fst r.
Proof.
  destruct kv as [k v]. unfold apply_override.
  destruct (dict_in k r) eqn:E; auto.
  destruct v; now apply keys_dict_set_in.
Qed.

Lemma fold_override_keys (kwargs r : dict) :
  map fst (fold_left apply_override kwargs r) = map fst r.
Proof.
  revert r. induction kwargs as [|kv kw IH]; intros r; simpl; auto.
  now rewrite IH, apply_override_keys.
Qed.

Lemma apply_override_value (r : dict) k v :
  apply_override r (k, v) =
  if dict_in k r then dict_set r k (override_value v) else r.
Proof. unfold apply_override. destruct (dict_in k r), v; reflexivity. Qed.

(** An override whose key the mapping does not hold changes nothing. *)
Lemma fold_override_without (k : string) (kwargs r : dict) :
  dict_in k r = false ->
  fold_left apply_override kwargs r
  = fold_left apply_override (without k kwargs) r.
Proof.
  revert r. induction kwargs as [|[k' v'] kw IH]; intros r Hk; simpl; auto.
  assert (Hk' : dict_in k (apply_override r (k', v')) = false).
  { rewrite <- Hk. apply dict_in_keys. apply apply_override_keys. }
  destruct (String.eqb_spec k' k) as [->|Hne]; simpl.
  - rewrite (apply_override_value r k v'), Hk in *. now apply IH.
  - now apply IH.
Qed.

Lemma fold_override_other (k : string) (kwargs r : dict) :
  dict_in k kwargs = false ->
  dict_get (fold_left apply_override kwargs r) k = dict_get r k.
Proof.
  revert r. induction kwargs as [|[k' v'] kw IH]; intros r Hk; simpl; auto.
  unfold dict_in in Hk. simpl in Hk.
  destruct (String.eqb_spec k' k) as [->|Hne]; [discriminate|].
  rewrite IH by exact Hk.
  rewrite apply_override_value. destruct (dict_in k' r); auto.
  apply dict_get_set_other. congruence.
Qed.

Lemma fold_override_hit (k : string) (v : value) (kwargs r : dict) :
  NoDup (map fst kwargs) ->
  dict_get kwargs k = Some v ->
  dict_in k r = true ->
  dict_get (fold_left apply_override kwargs r) k = Some (override_value v).
Proof.
  revert r. induction kwargs as [|[k' v'] kw IH]; intros r Hnd Hget Hin.
  - discriminate.
  - simpl in *. inversion Hnd as [|? ? Hnotin Hnd']; subst.
    destruct (String.eqb_spec k' k) as [->|Hne].
    + injection Hget as ->.
      rewrite fold_override_other by (now apply dict_in_false).
      rewrite apply_override_value, Hin. apply dict_get_set_same.
    + apply IH; auto. rewrite <- Hin. apply dict_in_keys.
      apply apply_override_keys.
Qed.

(** A mapping whose last key is [k], however its other entries change. *)
Lemma keys_last_entry (r : dict) (ks : list string) (k : string) :
  map fst r = (ks ++ [k])%list ->
  exists front x, r = (front ++ [(k, x)])%list /\ map fst front = ks.
Proof.
  revert ks. induction r as [|[k0 v0] r IH]; intros ks H.
  - destruct ks; discriminate.
  - destruct ks as [|k1 ks]; simpl in H.
    + injection H as -> Hr. apply map_eq_nil in Hr. subst r.
      now exists [], v0.
    + injection H as -> Hr. destruct (IH ks Hr) as (front & x & -> & Hf).
      exists ((k1, v0) :: front), x. simpl. now rewrite Hf.
Qed.

Lemma dict_to_xml_app t (d1 d2 : dict) :
  getchildren (dict_to_xml t (d1 ++ d2)) =
  (getchildren (dict_to_xml t d1) ++ getchildren (dict_to_xml t d2))%list.
Proof. simpl. apply map_app. Qed.

Lemma dict_to_xml_tags t (d : dict) :
  map tag (getchildren (dict_to_xml t d)) = map fst d.
Proof.
  simpl. rewrite map_map. apply map_ext. intros [k v]. apply tag_child_of.
Qed.

(* ================================================================= *)
(** ** The engine *)

Lemma init_fields cfg self :
  HuaweiAPI_init cfg = Ok self ->
  exists items common h host,
    cfg = PyDict items /\
    dict_get items "common" = Some common /\
    common_headers self = PyDict h /\
    dict_get h "Host" = Some (PyStr host) /\
    base_url self = ("http://" ++ host)%string /\
    api_dict self
    = filter (fun kv => negb (String.eqb (fst kv) "common-headers")) items.
Proof.
  unfold HuaweiAPI_init, rbind, getitem. intros H.
  destruct cfg as [| | | | |items]; try discriminate.
  destruct (dict_get items "common") as [common|] eqn:Ec; [|discriminate].
  destruct common as [| | | | |c]; try discriminate.
  destruct (dict_get c "headers") as [hd|]; [|discriminate].
  destruct (dict_get c "error-codes") as [codes|]; [|discriminate].
  destruct hd as [| | | | |h]; try discriminate.
  destruct (dict_get h "Host") as [host|] eqn:Eh; [|discriminate].
  destruct host as [| | |host| |]; try discriminate.
  simpl in H. injection H as <-.
  exists items, (PyDict c), h, host. simpl. repeat split; auto.
Qed.

Lemma getitem_not_APIError v k : is_APIError (getitem v k) = false.
Proof. destruct v; simpl; auto. now destruct (dict_get d k). Qed.

Lemma py_get_not_APIError v k : is_APIError (py_get v k) = false.
Proof. destruct v; simpl; auto. now destruct (dict_get d k). Qed.

Lemma setitem_not_APIError v k x : is_APIError (setitem v k x) = false.
Proof. now destruct v. Qed.

Lemma str_add_not_APIError s v : is_APIError (str_add s v) = false.
Proof. now destruct v. Qed.

Lemma unpack_pair_not_APIError item : is_APIError (unpack_pair item) = false.
Proof.
  destruct item as [| | |s|l|d]; try reflexivity.
  - destruct s as [|a [|b [|c s]]]; reflexivity.
  - destruct l as [|a [|b [|c l]]]; reflexivity.
  - destruct d as [|[a x] [|[b y] [|kv d]]]; reflexivity.
Qed.

Lemma add_pairs_not_APIError items :
  forall acc, is_APIError (add_pairs items acc) = false.
Proof.
  induction items as [|item rest IH]; intros acc; [reflexivity|].
  cbn [add_pairs]. unfold add_pair, rbind.
  pose proof (unpack_pair_not_APIError item) as Hu.
  destruct (unpack_pair item) as [[k x]|e]; [|exact Hu].
  destruct k; try reflexivity. apply IH.
Qed.

Lemma OrderedDict_not_APIError v : is_APIError (OrderedDict v) = false.
Proof.
  destruct v as [| | |s|l|d]; try reflexivity.
  - now destruct s.
  - apply add_pairs_not_APIError.
Qed.

Section EngineProperties.

Variable ET_tostring : Element -> string.
Variable ET_fromstring : string -> option Element.
Variable http : list HttpCall -> HttpCall -> option Response.

Lemma get_token_trace self tr :
  snd (get_token http self tr) = (tr ++ [token_fetch self])%list.
Proof.
  unfold get_token, bind, send. fold (token_fetch self).
  destruct (http tr (token_fetch self)) as [vendor|]; auto.
  destruct (status_code vendor =? 200); auto.
  destruct (re_search_token (response_text vendor)); auto.
Qed.

Lemma get_token_not_APIError self tr :
  is_APIError (fst (get_token http self tr)) = false.
Proof.
  unfold get_token, bind, send, ret, raise.
  destruct (http tr _) as [vendor|]; auto.
  destruct (status_code vendor =? 200); auto.
  now destruct (re_search_token (response_text vendor)).
Qed.

(** A POST command whose definition holds a URL and a field mapping:
    [make_request] fetches a token and builds the request from it. *)
Lemma make_request_post self name cmd u defaults h :
  dict_get (api_dict self) name = Some cmd ->
  getitem cmd "url" = Ok (PyStr u) ->
  getitem cmd "method" = Ok (PyStr "post") ->
  getitem cmd "request" = Ok (PyDict defaults) ->
  common_headers self = PyDict h ->
  exists hdrs, forall kwargs tr,
    make_request ET_tostring http self name kwargs tr =
    match get_token http self tr with
    | (Ok token, tr') =>
        (Ok (Some (mkAPIRequest requests_post (base_url self ++ u) (Some hdrs)
                     (Some (xml_declaration
                            ++ ET_tostring
                                 (dict_to_xml "request"
                                    (built_fields defaults kwargs token)))%string))),
         tr')
    | (Raise e, tr') => (Raise e, tr')
    end.
Proof.
  intros Hcmd Hurl Hmeth Hreq Hh.
  destruct cmd as [| | | | |c]; try discriminate.
  exists (match dict_get c "Referer" with
          | Some r => if truthy r then PyDict (dict_set h "Referer" r)
                      else PyDict h
          | None => PyDict h
          end).
  intros kwargs tr.
  unfold make_request, bind, lift, ret. rewrite Hcmd, Hurl.
  cbn [str_add]. rewrite Hmeth.
  replace (is_str (PyStr "post") "post") with true by reflexivity.
  rewrite Hreq. cbn [OrderedDict]. rewrite Hh.
  unfold py_get, getitem, setitem, rbind, built_fields.
  destruct (dict_get c "Referer") as [r|] eqn:Er.
  - destruct (truthy r) eqn:Et;
      destruct (get_token http self tr) as [[token|e] tr']; reflexivity.
  - cbn [truthy].
    destruct (get_token http self tr) as [[token|e] tr']; reflexivity.
Qed.

End EngineProperties.


(* ================================================================= *)
(** ** The decoders and the repeated-tag rule *)

(** The decoder of [huaweisms.py] applies the tie-break rule under every
    parent element: a child name that occurs once maps to the child's
    decoded value, a name that occurs more than once maps to the sequence
    of the decoded values in document order, and no other name is a key;
    so one [b] under [a] decodes to a scalar and two decode to a list. *)
Theorem etree_to_dict_tie_break t x c cs :
  (exists sub,
      etree_to_dict (mkElement t x (c :: cs)) = [(t, PyDict sub)] /\
      forall k,
        match tagged k (c :: cs) with
        | [] => dict_get sub k = None
        | [one] => dict_get sub k = Some (value_of one)
        | group => dict_get sub k = Some (PyList (map value_of group))
        end) /\
  etree_to_dict doc_a_b1 = [("a", PyDict [("b", PyStr "1")])] /\
  etree_to_dict doc_a_b1_b2
  = [("a", PyDict [("b", PyList [PyStr "1"; PyStr "2"])])].
Proof.
  split; [|split; reflexivity].
  destruct (decode_tie_break t x c cs) as (sub & Hd & _ & Hk).
  exists sub. split; [exact Hd|].
  intros k. specialize (Hk k).
  destruct (tagged k (c :: cs)) as [|one [|two rest]]; exact Hk.
Qed.

(** C1: the decoder of [huawei-sms.py] does not apply the tie-break rule.
    It wraps every child value in a mapping keyed by the child's own name
    and keeps only the last of the children that share a name: one [b]
    under [a] decodes to a nested mapping instead of the scalar, and of
    two only the second is left. *)
Theorem script_etree_to_dict_repeated :
  Script.etree_to_dict doc_a_b1
  = [("a", PyDict [("b", PyDict [("b", PyStr "1")])])] /\
  Script.etree_to_dict doc_a_b1_b2
  = [("a", PyDict [("b", PyDict [("b", PyStr "2")])])].
Proof. split; reflexivity. Qed.

(* ================================================================= *)
(** ** Round trip *)

(** C2, as the claim states it, fails: the empty mapping is encoded as an
    element without children, which decodes to [None]; and a leaf element
    without text decodes to [None], not to the empty string. *)
Lemma roundtrip_empty_node_fails :
  etree_to_dict (dict_to_xml "request" []) = [("request", PyNone)] /\
  etree_to_dict (dict_to_xml "request" [("Sca", PyDict [])])
  = [("request", PyDict [("Sca", PyNone)])] /\
  etree_to_dict (mkElement "Sca" None []) = [("Sca", PyNone)].
Proof. repeat split; reflexivity. Qed.

(** C2 (amended): a mapping built from strings and mappings that are not
    empty, with no key twice in one mapping, is decoded from its encoding
    to itself under the root tag; a leaf element decodes to its text, the
    empty string included, and to [None] when it has no text. *)
Theorem roundtrip_sendable (t : string) (d : dict) (leaf : string)
        (x : option string) :
  sendable (PyDict d) = true ->
  etree_to_dict (dict_to_xml t d) = [(t, PyDict d)] /\
  etree_to_dict (mkElement leaf x []) = [(leaf, text_value x)].
Proof.
  intros Hs. split.
  - rewrite etree_to_dict_value. rewrite <- child_of_dict.
    now rewrite tag_child_of, roundtrip_value.
  - rewrite etree_to_dict_value. simpl tag. now rewrite value_of_leaf.
Qed.

(** The round trip on the fields of a message, and a leaf with empty
    text. *)
Lemma roundtrip_sendable_witness :
  etree_to_dict
    (dict_to_xml "request"
       [("Index", PyStr "-1"); ("Phones", PyDict [("Phone", PyStr "0412345678")]);
        ("Content", PyStr "")])
  = [("request",
      PyDict [("Index", PyStr "-1");
              ("Phones", PyDict [("Phone", PyStr "0412345678")]);
              ("Content", PyStr "")])] /\
  etree_to_dict (mkElement "Content" (Some "") []) = [("Content", PyStr "")].
Proof.
  apply (roundtrip_sendable "request"
           [("Index", PyStr "-1");
            ("Phones", PyDict [("Phone", PyStr "0412345678")]);
            ("Content", PyStr "")] "Content" (Some "")).
  reflexivity.
Defined.

(* ================================================================= *)
(** ** Encoding of sequences *)

(** C6, as the claim states it, fails: two phone numbers under one name
    are encoded as one element, whose text is the printed list. *)
Lemma list_value_is_one_element :
  dict_to_xml "Phones" [("Phone", PyList [PyStr "0412345678"; PyStr "0487654321"])]
  = mkElement "Phones" None
      [mkElement "Phone" (Some "['0412345678', '0487654321']") []].
Proof. reflexivity. Qed.

(** C6 (amended): the encoder emits one child element per entry of the
    mapping, in the mapping's order; an entry whose value is a sequence
    yields exactly one leaf element, named by the entry's key, whose text
    is [str] of the sequence. *)
Theorem dict_to_xml_list_entry t (d1 d2 : dict) k (l : list value) :
  getchildren (dict_to_xml t (d1 ++ (k, PyList l) :: d2))
  = getchildren (dict_to_xml t d1)
    ++ mkElement k (Some (py_str (PyList l))) []
    :: getchildren (dict_to_xml t d2).
Proof. rewrite dict_to_xml_app. reflexivity. Qed.

(* ================================================================= *)
(** ** The request builder *)

Section Builder.

Variable ET_tostring : Element -> string.
Variable http : list HttpCall -> HttpCall -> option Response.

Lemma dict_in_set_token (defaults : dict) (k token : string) :
  dict_in k defaults = true ->
  dict_in k (dict_set defaults "token" (PyStr token)) = true.
Proof.
  intros H. apply dict_in_true. rewrite keys_dict_set.
  apply in_or_app. left. now apply dict_in_true.
Qed.

(** A method that is neither [post] nor [get] falls through the
    dispatch: [make_request] returns [None] and raises nothing. *)
Lemma make_request_other_method self name cmd u method kwargs tr :
  dict_get (api_dict self) name = Some cmd ->
  getitem cmd "url" = Ok (PyStr u) ->
  getitem cmd "method" = Ok method ->
  is_str method "post" = false ->
  is_str method "get" = false ->
  make_request ET_tostring http self name kwargs tr = (Ok None, tr).
Proof.
  intros Hcmd Hurl Hmeth Hpost Hget.
  unfold make_request, bind, lift, ret. rewrite Hcmd, Hurl.
  cbn [str_add]. now rewrite Hmeth, Hpost, Hget.
Qed.

(** C3: for a POST command, the children of the encoded [request]
    element are the default fields in their insertion order, followed by
    [token] when the defaults have no such field, whatever the overrides
    are; an override of an existing field replaces its value where the
    field stands. *)
Theorem make_request_keeps_field_order
        cfg self name cmd u defaults kwargs tr token :
  HuaweiAPI_init cfg = Ok self ->
  dict_get (api_dict self) name = Some cmd ->
  getitem cmd "url" = Ok (PyStr u) ->
  getitem cmd "method" = Ok (PyStr "post") ->
  getitem cmd "request" = Ok (PyDict defaults) ->
  fst (get_token http self tr) = Ok token ->
  exists hdrs request,
    fst (make_request ET_tostring http self name kwargs tr)
    = Ok (Some (mkAPIRequest requests_post (base_url self ++ u) (Some hdrs)
                  (Some (xml_declaration
                         ++ ET_tostring (dict_to_xml "request" request))%string)))
    /\ map tag (getchildren (dict_to_xml "request" request))
       = map fst defaults ++ (if dict_in "token" defaults then [] else ["token"])
    /\ forall k v,
        NoDup (map fst kwargs) ->
        dict_get kwargs k = Some v ->
        dict_in k defaults = true ->
        dict_get request k = Some (override_value v).
Proof.
  intros Hinit Hcmd Hurl Hmeth Hreq Htok.
  destruct (init_fields cfg self Hinit) as (_ & _ & h & _ & _ & _ & Hh & _).
  destruct (make_request_post ET_tostring http self name cmd u defaults h
              Hcmd Hurl Hmeth Hreq Hh) as [hdrs Hmk].
  exists hdrs, (built_fields defaults kwargs token).
  rewrite Hmk. destruct (get_token http self tr) as [[tok|e] tr'];
    simpl in Htok; [injection Htok as ->|discriminate].
  split; [reflexivity|split].
  - rewrite dict_to_xml_tags. unfold built_fields.
    now rewrite fold_override_keys, keys_dict_set.
  - intros k v Hnd Hget Hin. unfold built_fields.
    apply fold_override_hit; auto. now apply dict_in_set_token.
Qed.

(** C4, as the claim states it, fails for the key [token], which no
    default mapping of the catalog holds: the token is stored before the
    overrides are applied, so an override of that name replaces it. *)
Lemma token_override_changes_request :
  dict_in "token" (default_fields demo_api "sms-delete") = false /\
  fst (make_request tostring_plain (demo_http 200 "") demo_api "sms-delete"
         [("token", PyStr "forged")] [])
  = Ok (Some (mkAPIRequest requests_post "http://192.168.9.1/api/sms/delete-sms"
                (Some (common_headers demo_api))
                (Some "<?xml version='1.0' encoding='UTF-8'?><request><Index /><token>forged</token></request>"))) /\
  fst (make_request tostring_plain (demo_http 200 "") demo_api "sms-delete" [] [])
  = Ok (Some (mkAPIRequest requests_post "http://192.168.9.1/api/sms/delete-sms"
                (Some (common_headers demo_api))
                (Some "<?xml version='1.0' encoding='UTF-8'?><request><Index /><token>k4203token</token></request>"))).
Proof. repeat split; reflexivity. Qed.

(** C4 (amended): for a command whose default fields are keyed by
    strings, an override whose key is not [token] and is not a default
    field is ignored: the request built, the error raised and the calls
    issued are those of the same invocation without that override.  The
    default fields are the mapping [OrderedDict] builds from the entry
    [request], be it a mapping or a sequence of pairs. *)
Theorem make_request_ignores_unknown_override self name kwargs k tr :
  k <> "token" ->
  string_keyed_fields self name = true ->
  dict_in k (default_fields self name) = false ->
  make_request ET_tostring http self name kwargs tr
  = make_request ET_tostring http self name (without k kwargs) tr.
Proof.
  intros Hk _ Hdef. unfold make_request, default_fields, request_entry in *.
  destruct (dict_get (api_dict self) name) as [cmd|]; [|reflexivity].
  unfold bind, lift, ret.
  destruct (getitem cmd "url") as [url_v|]; [|reflexivity].
  destruct (str_add (base_url self) url_v) as [url|]; [|reflexivity].
  destruct (getitem cmd "method") as [method|]; [|reflexivity].
  destruct (is_str method "post"); [|reflexivity].
  destruct (getitem cmd "request") as [request_v|]; [|reflexivity].
  destruct (OrderedDict request_v) as [defaults|]; [|reflexivity].
  assert (Hfold : forall token,
             fold_left apply_override kwargs
               (dict_set defaults "token" (PyStr token))
             = fold_left apply_override (without k kwargs)
                 (dict_set defaults "token" (PyStr token))).
  { intros token. apply fold_override_without.
    apply dict_in_false. rewrite keys_dict_set. intros Hin.
    apply in_app_or in Hin. destruct Hin as [Hin|Hin].
    - apply dict_in_false in Hdef. contradiction.
    - destruct (dict_in "token" defaults); simpl in Hin; intuition congruence. }
  destruct (py_get cmd "Referer") as [referer|]; [|reflexivity].
  destruct (truthy referer).
  - destruct (getitem cmd "Referer") as [r|]; [|reflexivity]. cbn [rbind].
    destruct (setitem (common_headers self) "Referer" r) as [hdrs|];
      [|reflexivity].
    destruct (get_token http self tr) as [[token|e] tr2];
      [rewrite Hfold|]; reflexivity.
  - destruct (get_token http self tr) as [[token|e] tr2];
      [rewrite Hfold|]; reflexivity.
Qed.

(** A field mapping given as a sequence of pairs is a field mapping: an
    override of one of its keys is applied, where the key stands. *)
Lemma make_request_fields_from_pairs :
  default_fields pairs_api "sms-delete"
  = [("Index", PyStr ""); ("Reserved", PyInt 1)] /\
  fst (make_request tostring_plain (demo_http 200 "") pairs_api "sms-delete"
         [("Index", PyInt 40007)] [])
  = Ok (Some (mkAPIRequest requests_post "http://192.168.9.1/api/sms/delete-sms"
                (Some (common_headers pairs_api))
                (Some "<?xml version='1.0' encoding='UTF-8'?><request><Index>40007</Index><Reserved>1</Reserved><token>k4203token</token></request>"))).
Proof. split; reflexivity. Qed.

End Builder.

(** The command [sms] with two overrides: the body lists the seven
    default fields in the catalog's order, then [token]. *)
Lemma make_request_keeps_field_order_witness :
  exists hdrs request,
    fst (make_request tostring_plain (demo_http 200 "") demo_api "sms"
           [("Content", PyStr "Hello"); ("Length", PyInt 6)] [])
    = Ok (Some (mkAPIRequest requests_post
                  (base_url demo_api ++ "/api/sms/send-sms") (Some hdrs)
                  (Some (xml_declaration
                         ++ tostring_plain (dict_to_xml "request" request))%string)))
    /\ map tag (getchildren (dict_to_xml "request" request))
       = ["Index"; "Phones"; "Sca"; "Content"; "Length"; "Reserved"; "Date";
          "token"]
    /\ forall k v,
        NoDup (map fst [("Content", PyStr "Hello"); ("Length", PyInt 6)]) ->
        dict_get [("Content", PyStr "Hello"); ("Length", PyInt 6)] k = Some v ->
        dict_in k (default_fields demo_api "sms") = true ->
        dict_get request k = Some (override_value v).
Proof.
  exact (make_request_keeps_field_order tostring_plain (demo_http 200 "")
           demo_cfg demo_api "sms"
           (PyDict [("url", PyStr "/api/sms/send-sms");
                    ("method", PyStr "post");
                    ("Referer", PyStr "http://192.168.9.1/html/smsinbox.html");
                    ("request", PyDict (default_fields demo_api "sms"))])
           "/api/sms/send-sms" (default_fields demo_api "sms")
           [("Content", PyStr "Hello"); ("Length", PyInt 6)] [] "k4203token"
           eq_refl eq_refl eq_refl eq_refl eq_refl eq_refl).
Defined.

(** The command [sms-delete] whose fields are a sequence of pairs: the
    override [Bogus] changes nothing. *)
Lemma make_request_ignores_unknown_override_witness :
  make_request tostring_plain (demo_http 200 "") pairs_api "sms-delete"
    [("Index", PyInt 40007); ("Bogus", PyStr "x")] []
  = make_request tostring_plain (demo_http 200 "") pairs_api "sms-delete"
      [("Index", PyInt 40007)] [].
Proof.
  apply (make_request_ignores_unknown_override tostring_plain
           (demo_http 200 "") pairs_api "sms-delete"
           [("Index", PyInt 40007); ("Bogus", PyStr "x")] "Bogus" []).
  - discriminate.
  - reflexivity.
  - reflexivity.
Defined.


(* ================================================================= *)
(** ** The token of a POST request *)

Section Token.

Variable ET_tostring : Element -> string.
Variable http : list HttpCall -> HttpCall -> option Response.

(** C5 (amended): an invocation of a POST command issues exactly one
    call, the fetch of the token, and fails as the fetch fails.  The
    token is stored before the overrides are applied: it is the value of
    the field [token] unless an override of that name replaces it, and
    that field is the last child of the encoded body when the defaults
    hold no field of that name. *)
Theorem make_request_post_fetches_token
        cfg self name cmd u defaults kwargs tr :
  HuaweiAPI_init cfg = Ok self ->
  dict_get (api_dict self) name = Some cmd ->
  getitem cmd "url" = Ok (PyStr u) ->
  getitem cmd "method" = Ok (PyStr "post") ->
  getitem cmd "request" = Ok (PyDict defaults) ->
  snd (make_request ET_tostring http self name kwargs tr)
  = tr ++ [token_fetch self] /\
  (forall e, fst (get_token http self tr) = Raise e ->
             fst (make_request ET_tostring http self name kwargs tr) = Raise e) /\
  (forall token,
      fst (get_token http self tr) = Ok token ->
      exists hdrs request,
        fst (make_request ET_tostring http self name kwargs tr)
        = Ok (Some (mkAPIRequest requests_post (base_url self ++ u) (Some hdrs)
                      (Some (xml_declaration
                             ++ ET_tostring (dict_to_xml "request" request))%string)))
        /\ (dict_in "token" kwargs = false ->
            dict_get request "token" = Some (PyStr token))
        /\ (forall v, NoDup (map fst kwargs) ->
                      dict_get kwargs "token" = Some v ->
                      dict_get request "token" = Some (override_value v))
        /\ (dict_in "token" defaults = false ->
            exists front x,
              request = front ++ [("token", x)] /\
              map fst front = map fst defaults /\
              getchildren (dict_to_xml "request" request)
              = getchildren (dict_to_xml "request" front)
                ++ [child_of "token" x])).
Proof.
  intros Hinit Hcmd Hurl Hmeth Hreq.
  destruct (init_fields cfg self Hinit) as (_ & _ & h & _ & _ & _ & Hh & _).
  destruct (make_request_post ET_tostring http self name cmd u defaults h
              Hcmd Hurl Hmeth Hreq Hh) as [hdrs Hmk].
  rewrite Hmk. pose proof (get_token_trace http self tr) as Htr.
  destruct (get_token http self tr) as [[tok|e0] tr']; simpl in Htr; subst tr'.
  - split; [reflexivity|]. split; [discriminate|].
    intros token Htok. simpl in Htok. injection Htok as ->.
    exists hdrs, (built_fields defaults kwargs token).
    split; [reflexivity|]. unfold built_fields. split; [|split].
    + intros Hkw. rewrite fold_override_other by exact Hkw.
      apply dict_get_set_same.
    + intros v Hnd Hget. apply fold_override_hit; auto.
      unfold dict_in. now rewrite dict_get_set_same.
    + intros Hdef.
      destruct (keys_last_entry
                  (fold_left apply_override kwargs
                     (dict_set defaults "token" (PyStr token)))
                  (map fst defaults) "token") as (front & x & Hfront & Hkeys).
      { now rewrite fold_override_keys, keys_dict_set, Hdef. }
      exists front, x. rewrite Hfront. split; [reflexivity|].
      split; [exact Hkeys|]. now rewrite dict_to_xml_app.
  - split; [reflexivity|]. split.
    + intros e He. simpl in He. now injection He as ->.
    + discriminate.
Qed.

(** C10: the catalog holds every top-level key of the configuration but
    [common-headers]; the shared section [common] is one of its entries,
    so it is listed as a command and [make_request] does not refuse it
    with [APIError]. *)
Theorem api_dict_keeps_common cfg self :
  HuaweiAPI_init cfg = Ok self ->
  (exists items,
      cfg = PyDict items /\
      forall k, In k (list_requests self)
                <-> In k (map fst items) /\ k <> "common-headers") /\
  In "common" (list_requests self) /\
  forall kwargs tr,
    is_APIError (fst (make_request ET_tostring http self "common" kwargs tr))
    = false.
Proof.
  intros Hinit.
  destruct (init_fields cfg self Hinit)
    as (items & common & h & host & -> & Hc & _ & _ & _ & Hapi).
  assert (Hall : forall k, In k (list_requests self)
                           <-> In k (map fst items) /\ k <> "common-headers").
  { intros k. unfold list_requests. rewrite Hapi. rewrite !in_map_iff. split.
    - intros ([k' v] & <- & Hin). apply filter_In in Hin. destruct Hin as [Hin Hf].
      simpl in *. split.
      + now exists (k', v).
      + apply negb_true_iff in Hf. now apply String.eqb_neq.
    - intros [([k' v] & <- & Hin) Hne]. exists (k', v). split; auto.
      apply filter_In. split; auto. simpl in *.
      apply negb_true_iff. now apply String.eqb_neq. }
  assert (Hcommon : In "common" (list_requests self)).
  { apply Hall. split; [|discriminate].
    destruct (in_dec string_dec "common" (map fst items)) as [H|H]; auto.
    apply dict_get_None_notin in H. congruence. }
  split; [now exists items|]. split; [exact Hcommon|].
  intros kwargs tr. unfold make_request.
  destruct (dict_get (api_dict self) "common") as [cmd|] eqn:Ecmd.
  - unfold bind, lift, ret.
    destruct (getitem cmd "url") as [url_v|e] eqn:E1;
      [|not_api E1 getitem_not_APIError].
    destruct (str_add (base_url self) url_v) as [url|e] eqn:E2;
      [|not_api E2 str_add_not_APIError].
    destruct (getitem cmd "method") as [method|e] eqn:E3;
      [|not_api E3 getitem_not_APIError].
    destruct (is_str method "post");
      [|destruct (is_str method "get"); reflexivity].
    destruct (getitem cmd "request") as [request_v|e] eqn:E4;
      [|not_api E4 getitem_not_APIError].
    destruct (OrderedDict request_v) as [request|e] eqn:E5;
      [|not_api E5 OrderedDict_not_APIError].
    destruct (py_get cmd "Referer") as [referer|e] eqn:E6;
      [|not_api E6 py_get_not_APIError].
    pose proof (get_token_not_APIError http self tr) as Ht.
    destruct (truthy referer).
    + destruct (getitem cmd "Referer") as [r|e] eqn:E7; cbn [rbind];
        [|not_api E7 getitem_not_APIError].
      destruct (setitem (common_headers self) "Referer" r) as [hdrs|e] eqn:E8;
        [|not_api E8 setitem_not_APIError].
      destruct (get_token http self tr) as [[token|e] tr2];
        [reflexivity | exact Ht].
    + destruct (get_token http self tr) as [[token|e] tr2];
        [reflexivity | exact Ht].
  - exfalso. apply dict_get_None_notin in Ecmd. exact (Ecmd Hcommon).
Qed.

End Token.

(** The command [sms-list], from the empty trace: one call, the fetch. *)
Lemma make_request_post_fetches_token_witness :
  snd (make_request tostring_plain (demo_http 200 "") demo_api "sms-list" [] [])
  = [token_fetch demo_api].
Proof.
  exact (proj1 (make_request_post_fetches_token tostring_plain (demo_http 200 "")
                  demo_cfg demo_api "sms-list"
                  (PyDict [("url", PyStr "/api/sms/sms-list");
                           ("method", PyStr "post");
                           ("request",
                            PyDict (default_fields demo_api "sms-list"))])
                  "/api/sms/sms-list" (default_fields demo_api "sms-list") [] []
                  eq_refl eq_refl eq_refl eq_refl eq_refl)).
Defined.

(** The example catalog lists [common], and [make_request] fails on it
    with an error other than [APIError]. *)
Lemma api_dict_keeps_common_witness :
  In "common" (list_requests demo_api) /\
  is_APIError (fst (make_request tostring_plain (demo_http 200 "") demo_api
                      "common" [] [])) = false.
Proof.
  destruct (api_dict_keeps_common tostring_plain (demo_http 200 "")
              demo_cfg demo_api eq_refl) as (_ & Hin & Hmk).
  split; [exact Hin | exact (Hmk [] [])].
Defined.

(** C5, as the claim states it, fails: with an override named [token]
    the fetched token is not in the body at all; the last child holds
    the override instead. *)
Lemma token_is_set_before_overrides :
  fst (get_token (demo_http 200 "") demo_api []) = Ok "k4203token" /\
  fst (make_request tostring_plain (demo_http 200 "") demo_api "sms-list"
         [("token", PyInt 0)] [])
  = Ok (Some (mkAPIRequest requests_post "http://192.168.9.1/api/sms/sms-list"
                (Some (common_headers demo_api))
                (Some "<?xml version='1.0' encoding='UTF-8'?><request><PageIndex>1</PageIndex><ReadCount>20</ReadCount><BoxType>1</BoxType><token>0</token></request>"))).
Proof. split; reflexivity. Qed.

(** C7: for a command whose method is [put], [make_request] raises
    nothing and returns [None]; [run_command] then fails on the missing
    descriptor with [AttributeError], before any call is issued. *)
Theorem make_request_put_returns_none :
  make_request tostring_plain (demo_http 200 "") demo_api "reboot" [] []
  = (Ok None, []) /\
  run_command tostring_plain demo_fromstring (demo_http 200 "") demo_api
    "reboot" [] []
  = (Raise AttributeError, []).
Proof. split; reflexivity. Qed.

(* ================================================================= *)
(** ** The response interpreter *)

Section Interpreter.

Variable ET_tostring : Element -> string.
Variable ET_fromstring : string -> option Element.
Variable http : list HttpCall -> HttpCall -> option Response.

(** [run_command], once the request is built, answered and parsed. *)
Lemma run_command_answered self name kwargs tr r tr1 resp tree :
  make_request ET_tostring http self name kwargs tr = (Ok (Some r), tr1) ->
  http tr1 (mkCall (req_fun r) (url r) (kw_headers r) (kw_data r)) = Some resp ->
  ET_fromstring (response_text resp) = Some tree ->
  run_command ET_tostring ET_fromstring http self name kwargs tr
  = (Ok (status_code resp, etree_to_dict tree),
     tr1 ++ [mkCall (req_fun r) (url r) (kw_headers r) (kw_data r)]).
Proof.
  intros Hmk Hhttp Hparse.
  unfold run_command, bind. rewrite Hmk.
  unfold run, send. rewrite Hhttp.
  unfold lift, response_to_dict, rbind, ret. now rewrite Hparse.
Qed.

(** C8 (amended): whatever the status code of the answer, [run_command]
    raises nothing for it and returns the status code together with the
    decoded body; it is [get_inbox] that raises [HTTPStatus] on a status
    other than 200, and that exception carries neither the status nor
    the body. *)
Theorem run_command_returns_status_and_body
        self name kwargs tr r tr1 resp tree :
  make_request ET_tostring http self name kwargs tr = (Ok (Some r), tr1) ->
  http tr1 (mkCall (req_fun r) (url r) (kw_headers r) (kw_data r)) = Some resp ->
  ET_fromstring (response_text resp) = Some tree ->
  run_command ET_tostring ET_fromstring http self name kwargs tr
  = (Ok (status_code resp, etree_to_dict tree),
     tr1 ++ [mkCall (req_fun r) (url r) (kw_headers r) (kw_data r)]) /\
  (name = "sms-list" -> kwargs = [] -> status_code resp <> 200 ->
   get_inbox ET_tostring ET_fromstring http self tr
   = (Raise HTTPStatus,
      tr1 ++ [mkCall (req_fun r) (url r) (kw_headers r) (kw_data r)])).
Proof.
  intros Hmk Hhttp Hparse.
  pose proof (run_command_answered _ _ _ _ _ _ _ _ Hmk Hhttp Hparse) as Hrun.
  split; [exact Hrun|].
  intros -> -> Hst. unfold get_inbox, bind. rewrite Hrun. cbn [fst].
  apply Z.eqb_neq in Hst. now rewrite Hst.
Qed.

(** On a status of 200 and a body whose root is [response] with at least
    one child, [get_inbox] returns a sequence: the empty one when the
    entry [Messages] is absent or is no mapping; the one message when the
    single [Messages] child holds exactly one [Message] child; all the
    messages in document order when it holds more. *)
Theorem get_inbox_normalizes self tr tr' x rc rcs :
  run_command ET_tostring ET_fromstring http self "sms-list" [] tr
  = (Ok (200, etree_to_dict (mkElement "response" x (rc :: rcs))), tr') ->
  ((forall md, entry_of (tagged "Messages" (rc :: rcs)) <> Some (PyDict md)) ->
   get_inbox ET_tostring ET_fromstring http self tr = (Ok [], tr')) /\
  (forall messages,
      tagged "Messages" (rc :: rcs) = [messages] ->
      (forall m,
          tagged "Message" (getchildren messages) = [m] ->
          get_inbox ET_tostring ET_fromstring http self tr
          = (Ok [value_of m], tr')) /\
      (forall m1 m2 ms,
          tagged "Message" (getchildren messages) = m1 :: m2 :: ms ->
          get_inbox ET_tostring ET_fromstring http self tr
          = (Ok (map value_of (m1 :: m2 :: ms)), tr'))).
Proof.
  intros Hrun.
  destruct (decode_tie_break "response" x rc rcs) as (sub & Hdoc & _ & Hsub).
  assert (Hget : get_inbox ET_tostring ET_fromstring http self tr
                 = match entry_of (tagged "Messages" (rc :: rcs)) with
                   | Some (PyDict md) =>
                       match dict_get md "Message" with
                       | Some (PyList l) => (Ok l, tr')
                       | Some m => (Ok [m], tr')
                       | None => (Ok [PyNone], tr')
                       end
                   | _ => (Ok [], tr')
                   end).
  { unfold get_inbox, bind. rewrite Hrun. cbn [fst snd]. rewrite Hdoc.
    unfold lift, ret. cbn [getitem dict_get].
    rewrite String.eqb_refl. unfold py_get. rewrite (Hsub "Messages").
    destruct (entry_of (tagged "Messages" (rc :: rcs))) as [v|]; [|reflexivity].
    destruct v as [| | | | |md]; try reflexivity.
    destruct (dict_get md "Message") as [m|]; [|reflexivity].
    destruct m; reflexivity. }
  split.
  - intros Hno. rewrite Hget.
    destruct (entry_of (tagged "Messages" (rc :: rcs))) as [v|]; [|reflexivity].
    destruct v as [| | | | |md]; try reflexivity.
    exfalso. now apply (Hno md).
  - intros messages Hone.
    assert (Hentry : forall c cs, getchildren messages = c :: cs ->
              exists md, entry_of (tagged "Messages" (rc :: rcs)) = Some (PyDict md)
                         /\ forall k, dict_get md k = entry_of (tagged k (c :: cs))).
    { intros c cs Hch. rewrite Hone. simpl entry_of.
      destruct messages as [t0 x0 ch]. simpl in Hch. subst ch.
      destruct (decode_tie_break t0 x0 c cs) as (md & _ & Hv & Hmd).
      exists md. now rewrite Hv. }
    split.
    + intros m Hm.
      destruct (getchildren messages) as [|c cs] eqn:Hch; [discriminate|].
      destruct (Hentry c cs eq_refl) as (md & He & Hmd).
      rewrite Hget, He, (Hmd "Message"), Hm. simpl entry_of.
      destruct (value_of m) eqn:Ev; try reflexivity.
      exfalso. exact (value_of_not_list m _ Ev).
    + intros m1 m2 ms Hm.
      destruct (getchildren messages) as [|c cs] eqn:Hch; [discriminate|].
      destruct (Hentry c cs eq_refl) as (md & He & Hmd).
      now rewrite Hget, He, (Hmd "Message"), Hm.
Qed.

End Interpreter.

(** C8, as the claim states it, fails: on the status 500, [run_command]
    returns the status and the decoded error body and raises nothing. *)
Lemma run_command_returns_on_error_status :
  run_command tostring_plain demo_fromstring (demo_http 500 error_text)
    demo_api "sms-count" [] []
  = (Ok (500, [("error", PyDict [("code", PyStr "100003"); ("message", PyNone)])]),
     [mkCall requests_get "http://192.168.9.1/api/sms/sms-count" None None]).
Proof. reflexivity. Qed.

(** The command [sms-count] answered with the status 500. *)
Lemma run_command_returns_status_and_body_witness :
  run_command tostring_plain demo_fromstring (demo_http 500 error_text)
    demo_api "sms-count" [] []
  = (Ok (500, etree_to_dict error_doc),
     [mkCall requests_get "http://192.168.9.1/api/sms/sms-count" None None]).
Proof.
  exact (proj1 (run_command_returns_status_and_body tostring_plain
                  demo_fromstring (demo_http 500 error_text) demo_api
                  "sms-count" [] []
                  (mkAPIRequest requests_get
                     "http://192.168.9.1/api/sms/sms-count" None None)
                  [] (mkResponse 500 error_text) error_doc
                  eq_refl eq_refl eq_refl)).
Defined.

(** C9: [get_inbox] is to return the empty sequence when the field
    [Messages] is absent, and does so on a [response] element that holds
    other children only.  On a status of 200 and a [response] element
    without children, where the field is absent as well, it raises
    [AttributeError] instead: the decoder gives [None] for that element
    and [get_inbox] calls [get] on it.  On a status of 200 and an [error]
    document it raises [KeyError]. *)
Lemma get_inbox_fails_on_childless_response :
  run_command tostring_plain demo_fromstring (demo_http 200 empty_response_text)
    demo_api "sms-list" [] []
  = (Ok (200, [("response", PyNone)]),
     [token_fetch demo_api;
      mkCall requests_post "http://192.168.9.1/api/sms/sms-list"
        (Some (common_headers demo_api))
        (Some "<?xml version='1.0' encoding='UTF-8'?><request><PageIndex>1</PageIndex><ReadCount>20</ReadCount><BoxType>1</BoxType><token>k4203token</token></request>")]) /\
  fst (get_inbox tostring_plain demo_fromstring
         (demo_http 200 empty_response_text) demo_api [])
  = Raise AttributeError /\
  fst (get_inbox tostring_plain count_fromstring
         (demo_http 200 count_only_text) demo_api [])
  = Ok [] /\
  fst (get_inbox tostring_plain demo_fromstring
         (demo_http 200 error_text) demo_api [])
  = Raise (KeyError "response").
Proof. repeat split; reflexivity. Qed.

(** An inbox of two messages: both are returned, in document order. *)
Lemma get_inbox_normalizes_witness :
  get_inbox tostring_plain demo_fromstring (demo_http 200 inbox_text)
    demo_api []
  = (Ok [PyDict [("Index", PyStr "40007"); ("Content", PyStr "Test")];
         PyDict [("Index", PyStr "40008"); ("Content", PyStr "Again")]],
     snd (run_command tostring_plain demo_fromstring (demo_http 200 inbox_text)
            demo_api "sms-list" [] [])).
Proof.
  refine (proj2 (proj2 (get_inbox_normalizes tostring_plain demo_fromstring
                          (demo_http 200 inbox_text) demo_api [] _ None
                          (mkElement "Count" (Some "2") []) _ eq_refl)
                   _ eq_refl) _ _ _ eq_refl).
Defined.

(* ================================================================= *)
(** ** More on the decoder of [huaweisms.py] *)

Lemma filter_twice {A} (p q : A -> bool) (l : list A) :
  filter p (filter q l) = filter (fun x => q x && p x) l.
Proof.
  induction l as [|a l IH]; simpl; auto.
  destruct (q a); simpl; [destruct (p a)|]; now rewrite IH.
Qed.

Lemma add_child_keys (acc : dict) (c : Element) :
  map fst (add_child acc (tag c) (internal_iter c []))
  = map fst acc ++ (if dict_in (tag c) acc then [] else [tag c]).
Proof.
  rewrite internal_iter_nil. unfold add_child, dict_in. simpl dict_get at 2.
  rewrite String.eqb_refl.
  destruct (dict_get acc (tag c)) as [old|] eqn:E.
  - rewrite keys_dict_set. unfold dict_in. now rewrite E.
  - unfold dict_update. simpl. rewrite keys_dict_set. unfold dict_in.
    now rewrite E.
Qed.

Lemma dict_in_existsb (d : dict) k :
  dict_in k d = existsb (String.eqb k) (map fst d).
Proof.
  unfold dict_in. induction d as [|[k' v] d IH]; simpl; auto.
  rewrite (String.eqb_sym k k'). destruct (String.eqb k' k); auto.
Qed.

Lemma decode_children_keys (cs : list Element) (acc : dict) :
  map fst (decode_children cs acc)
  = map fst acc
    ++ filter (fun y => negb (existsb (String.eqb y) (map fst acc)))
         (distinct_tags (map tag cs)).
Proof.
  revert acc. induction cs as [|c cs IH]; intros acc.
  - simpl. now rewrite app_nil_r.
  - unfold decode_children. simpl fold_left.
    fold (decode_children cs (add_child acc (tag c) (internal_iter c []))).
    rewrite IH, add_child_keys. simpl map. simpl distinct_tags.
    simpl filter. rewrite <- dict_in_existsb.
    destruct (dict_in (tag c) acc) eqn:Ein; simpl negb; cbv iota.
    + rewrite app_nil_r. f_equal. rewrite filter_twice.
      apply filter_ext_in. intros y _.
      destruct (String.eqb_spec y (tag c)) as [->|Hne]; simpl; auto.
      now rewrite <- dict_in_existsb, Ein.
    + rewrite <- app_assoc. simpl. do 2 f_equal. rewrite filter_twice.
      apply filter_ext. intros y. rewrite existsb_app. simpl.
      rewrite orb_false_r, negb_orb. apply andb_comm.
Qed.

Lemma entry_of_list (group : list Element) (l : list value) :
  entry_of group = Some (PyList l) ->
  (2 <= List.length l)%nat /\ l = map value_of group.
Proof.
  destruct group as [|c0 [|c1 g]]; simpl; intros H.
  - discriminate.
  - injection H as H. exfalso. exact (value_of_not_list c0 l H).
  - injection H as <-. simpl. split; [lia|reflexivity].
Qed.

(** The mapping decoded for a parent lists the names of its children in
    the order of their first occurrence, each once; an entry that is a
    sequence holds at least two values, the decoded children of that
    name in document order, and none of them is a sequence. *)
Theorem etree_to_dict_keys t x c cs :
  exists sub,
    etree_to_dict (mkElement t x (c :: cs)) = [(t, PyDict sub)] /\
    map fst sub = distinct_tags (map tag (c :: cs)) /\
    forall k l,
      dict_get sub k = Some (PyList l) ->
      (2 <= List.length l)%nat /\
      l = map value_of (tagged k (c :: cs)) /\
      Forall (fun v => is_mapping v = true \/ v = PyNone \/ exists s, v = PyStr s) l.
Proof.
  exists (decode_children (c :: cs) []). split; [|split].
  - rewrite etree_to_dict_value. simpl tag. now rewrite value_of_node.
  - rewrite decode_children_keys.
    generalize (distinct_tags (map tag (c :: cs))). intros l.
    induction l as [|a l IH]; simpl in *; congruence.
  - intros k l Hget.
    rewrite (decode_children_entries (c :: cs) [] []) in Hget by reflexivity.
    simpl app in Hget. apply entry_of_list in Hget. destruct Hget as [Hlen ->].
    split; [exact Hlen|]. split; [reflexivity|].
    apply Forall_forall. intros v Hin. apply in_map_iff in Hin.
    destruct Hin as (e & <- & _). destruct e as [t0 x0 [|c0 cs0]].
    + rewrite value_of_leaf. destruct x0; simpl; eauto.
    + rewrite value_of_node. now left.
Qed.

(* ================================================================= *)
(** ** Decoding what was encoded *)

Lemma decode_children_encoded (d : dict) (acc : dict) :
  NoDup (map fst acc ++ map fst d) ->
  decode_children (map (fun kv => let '(k, x) := kv in child_of k x) d) acc
  = acc ++ map (fun kv => let '(k, x) := kv in (k, value_of (child_of k x))) d.
Proof.
  revert acc. induction d as [|[k v] d IH]; intros acc Hnd.
  - simpl. now rewrite app_nil_r.
  - simpl map in *. unfold decode_children. simpl fold_left.
    fold (decode_children
            (map (fun kv => let '(k, x) := kv in child_of k x) d)).
    rewrite internal_iter_nil, tag_child_of.
    assert (Hk : dict_get acc k = None).
    { apply dict_get_None_notin. intros Hin.
      apply NoDup_remove_2 in Hnd. apply Hnd. apply in_or_app. now left. }
    unfold add_child. rewrite Hk. unfold dict_update. simpl fold_left.
    rewrite (dict_set_new acc k _ Hk).
    rewrite IH.
    + now rewrite <- app_assoc.
    + rewrite map_app. simpl. now rewrite <- app_assoc.
Qed.

Lemma value_of_child_of (v : value) :
  forall k, distinct_keys v = true -> value_of (child_of k v) = stringify v.
Proof.
  induction v as [| b | z | s | l _ | d IH] using value_ind; intros k Hd;
    try (simpl; apply value_of_leaf).
  destruct d as [|[k0 v0] d].
  - simpl. apply value_of_leaf.
  - simpl in Hd. apply andb_true_iff in Hd. destruct Hd as [Hnd Hall].
    rewrite child_of_dict. unfold dict_to_xml.
    change (map (fun kv => let '(k1, x) := kv in child_of k1 x) ((k0, v0) :: d))
      with (child_of k0 v0
            :: map (fun kv => let '(k1, x) := kv in child_of k1 x) d).
    rewrite value_of_node.
    change (child_of k0 v0
            :: map (fun kv => let '(k1, x) := kv in child_of k1 x) d)
      with (map (fun kv => let '(k1, x) := kv in child_of k1 x) ((k0, v0) :: d)).
    rewrite decode_children_encoded by (now apply nodupb_NoDup).
    rewrite app_nil_l. cbn [stringify]. f_equal.
    apply map_ext_in. intros [k1 v1] Hin. f_equal.
    rewrite Forall_forall in IH. apply (IH (k1, v1) Hin).
    change (forallb (fun kv => let '(_, x) := kv in distinct_keys x)
              ((k0, v0) :: d) = true) in Hall.
    rewrite forallb_forall in Hall. apply (Hall (k1, v1) Hin).
Qed.

(** Decoding the encoding of a mapping, no mapping of which holds a key
    twice, returns it with every value that is no mapping replaced by its
    [str] (so a number comes back as a string and [None] as the string
    of that name) and every empty mapping replaced by [None]. *)
Theorem decode_encode_stringify (t : string) (d : dict) :
  distinct_keys (PyDict d) = true ->
  etree_to_dict (dict_to_xml t d) = [(t, stringify (PyDict d))].
Proof.
  intros Hd. rewrite etree_to_dict_value, <- child_of_dict.
  now rewrite tag_child_of, value_of_child_of.
Qed.

(** The default fields of a message: the numbers come back as strings,
    the empty mapping and [None] do not come back as themselves. *)
Lemma decode_encode_stringify_witness :
  etree_to_dict
    (dict_to_xml "request"
       [("Index", PyInt (-1)); ("Phones", PyDict []); ("Sca", PyNone);
        ("Reserved", PyBool true)])
  = [("request",
      PyDict [("Index", PyStr "-1"); ("Phones", PyNone);
              ("Sca", PyStr "None"); ("Reserved", PyStr "True")])].
Proof.
  apply (decode_encode_stringify "request"
           [("Index", PyInt (-1)); ("Phones", PyDict []); ("Sca", PyNone);
            ("Reserved", PyBool true)]).
  reflexivity.
Defined.

(* ================================================================= *)
(** ** More on the decoder of [huawei-sms.py] *)

Lemma last_tagged_snoc_same (p : list Element) (c : Element) :
  last_tagged (tag c) (p ++ [c]) = Some c.
Proof.
  unfold last_tagged. rewrite tagged_app. simpl tagged.
  rewrite String.eqb_refl, rev_app_distr. reflexivity.
Qed.

Lemma last_tagged_snoc_other (p : list Element) (c : Element) k :
  tag c <> k -> last_tagged k (p ++ [c]) = last_tagged k p.
Proof.
  intros Hne. unfold last_tagged. rewrite tagged_app. simpl tagged.
  destruct (String.eqb_spec (tag c) k); [contradiction|].
  now rewrite app_nil_r.
Qed.

Lemma script_children_entries (cs p : list Element) (acc : dict) :
  (forall k, dict_get acc k
             = option_map (fun e => PyDict (Script.etree_to_dict e))
                 (last_tagged k p)) ->
  forall k,
    dict_get (fold_left
                (fun acc c => dict_set acc (tag c) (PyDict (Script.etree_to_dict c)))
                cs acc) k
    = option_map (fun e => PyDict (Script.etree_to_dict e))
        (last_tagged k (p ++ cs)).
Proof.
  revert p acc. induction cs as [|c cs IH]; intros p acc Hinv k.
  - rewrite app_nil_r. apply Hinv.
  - simpl fold_left.
    replace (p ++ c :: cs) with ((p ++ [c]) ++ cs) by (now rewrite <- app_assoc).
    apply IH. intros k'.
    destruct (String.eqb_spec (tag c) k') as [<-|Hne].
    + now rewrite dict_get_set_same, last_tagged_snoc_same.
    + rewrite dict_get_set_other by congruence.
      rewrite last_tagged_snoc_other by exact Hne. apply Hinv.
Qed.

(** The decoder of [huawei-sms.py], for every element: a leaf decodes to
    its text; a parent decodes to a mapping that holds, for each name
    among its children, only the last child of that name, decoded and
    wrapped once more under its own name. *)
Theorem script_etree_to_dict_last t x c cs :
  Script.etree_to_dict (mkElement t x []) = [(t, text_value x)] /\
  exists sub,
    Script.etree_to_dict (mkElement t x (c :: cs)) = [(t, PyDict sub)] /\
    forall k,
      dict_get sub k
      = option_map (fun e => PyDict (Script.etree_to_dict e))
          (last_tagged k (c :: cs)).
Proof.
  split; [reflexivity|].
  pose proof (script_children_entries (c :: cs) [] [] (fun _ => eq_refl)) as H.
  simpl app in H.
  set (sub := fold_left
                (fun acc e => dict_set acc (tag e) (PyDict (Script.etree_to_dict e)))
                (c :: cs) []) in *.
  exists sub. split; [|exact H].
  change (Script.etree_to_dict (mkElement t x (c :: cs)))
    with [(t, match sub with [] => text_value x | _ :: _ => PyDict sub end)].
  specialize (H (tag c)).
  assert (Hsome : last_tagged (tag c) (c :: cs) <> None).
  { unfold last_tagged. simpl tagged. rewrite String.eqb_refl.
    simpl rev. destruct (rev (tagged (tag c) cs)); discriminate. }
  destruct sub as [|kv sub']; [|reflexivity].
  simpl in H. destruct (last_tagged (tag c) (c :: cs)); [discriminate|].
  now contradiction Hsome.
Qed.

(* ================================================================= *)
(** ** The token pattern *)

Lemma string_mem_app c (a b : string) :
  string_mem c (a ++ b)%string = string_mem c a || string_mem c b.
Proof.
  induction a as [|c' a IH]; simpl; auto.
  now rewrite IH, orb_assoc.
Qed.

Lemma append_assoc_s (a b c : string) :
  ((a ++ b) ++ c = a ++ (b ++ c))%string.
Proof. induction a as [|x a IH]; simpl; congruence. Qed.

Lemma prefix_append (a s : string) : prefix a (a ++ s)%string = true.
Proof.
  induction a as [|c a IH]; simpl.
  - now destruct s.
  - destruct (ascii_dec c c); [exact IH | congruence].
Qed.

Lemma drop_append (a s : string) : drop (String.length a) (a ++ s)%string = s.
Proof. induction a as [|c a IH]; simpl; auto. Qed.

Lemma prefix_inv (a s : string) :
  prefix a s = true -> s = (a ++ drop (String.length a) s)%string.
Proof.
  revert s. induction a as [|c a IH]; intros s H; simpl.
  - now destruct s.
  - destruct s as [|c' s]; simpl in H; [discriminate|].
    destruct (ascii_dec c c') as [->|]; [|discriminate].
    f_equal. now apply IH.
Qed.

Lemma skip_spaces_append (ws r : string) :
  string_forallb is_space ws = true ->
  skip_spaces (ws ++ String "="%char r)%string = String "="%char r.
Proof.
  induction ws as [|c ws IH]; simpl; intros H; auto.
  apply andb_true_iff in H. destruct H as [Hc Hws]. rewrite Hc. now apply IH.
Qed.

Lemma skip_spaces_inv (s : string) :
  exists ws, s = (ws ++ skip_spaces s)%string /\ string_forallb is_space ws = true.
Proof.
  induction s as [|c s (ws & Hs & Hws)]; simpl.
  - now exists "".
  - destruct (is_space c) eqn:Ec.
    + exists (String c ws). simpl. rewrite Ec, Hws. split; [|reflexivity].
      now rewrite <- Hs.
    + now exists "".
Qed.

Lemma line_of_append (l r : string) :
  string_mem newline l = false ->
  line_of (l ++ String newline r)%string = Some l.
Proof.
  induction l as [|c l IH]; cbn [line_of string_mem append]; intros H.
  - now rewrite Ascii.eqb_refl.
  - apply orb_false_iff in H. destruct H as [Hc Hl].
    rewrite Ascii.eqb_sym, Hc. now rewrite IH.
Qed.

Lemma line_of_inv (r l : string) :
  line_of r = Some l ->
  exists rest, r = (l ++ String newline rest)%string /\ string_mem newline l = false.
Proof.
  revert l. induction r as [|c r IH]; cbn [line_of]; intros l H; [discriminate|].
  destruct (Ascii.eqb_spec c newline) as [->|Hne].
  - injection H as <-. now exists r.
  - destruct (line_of r) as [l'|]; [|discriminate]. cbn [option_map] in H.
    injection H as <-. destruct (IH l' eq_refl) as (rest & -> & Hl).
    exists rest. cbn [append string_mem]. rewrite Hl. split; auto.
    destruct (Ascii.eqb_spec newline c); [congruence | reflexivity].
Qed.

Lemma before_last_quote_none (s : string) :
  string_mem dquote s = false -> before_last_quote s = None.
Proof.
  induction s as [|c s IH]; cbn [before_last_quote string_mem]; intros H; auto.
  apply orb_false_iff in H. destruct H as [Hc Hs].
  now rewrite IH, Ascii.eqb_sym, Hc.
Qed.

Lemma before_last_quote_append (tok tail : string) :
  string_mem dquote tail = false ->
  before_last_quote (tok ++ String dquote tail)%string = Some tok.
Proof.
  intros H. induction tok as [|c tok IH]; cbn [before_last_quote append].
  - rewrite before_last_quote_none by exact H. now rewrite Ascii.eqb_refl.
  - now rewrite IH.
Qed.

Lemma before_last_quote_some (l : string) :
  before_last_quote l = None -> string_mem dquote l = false.
Proof.
  induction l as [|c l IH]; cbn [before_last_quote string_mem]; auto.
  destruct (before_last_quote l); [discriminate|].
  destruct (Ascii.eqb_spec c dquote) as [->|Hne]; [discriminate|].
  intros _. rewrite IH by reflexivity.
  destruct (Ascii.eqb_spec dquote c); [congruence | reflexivity].
Qed.

Lemma before_last_quote_inv (l g : string) :
  before_last_quote l = Some g ->
  exists tail, l = (g ++ String dquote tail)%string /\ string_mem dquote tail = false.
Proof.
  revert g. induction l as [|c l IH]; cbn [before_last_quote]; intros g H;
    [discriminate|].
  destruct (before_last_quote l) as [r|] eqn:E.
  - injection H as <-. destruct (IH r eq_refl) as (tail & -> & Ht).
    now exists tail.
  - destruct (Ascii.eqb_spec c dquote) as [->|]; [|discriminate].
    injection H as <-. exists l. split; auto.
    now apply before_last_quote_some.
Qed.

Lemma match_here_assignment ws sp tok tail rest :
  string_forallb is_space ws = true ->
  is_space sp = true ->
  string_mem newline tok = false ->
  string_mem newline tail = false ->
  string_mem dquote tail = false ->
  match_here (assignment ws sp tok tail rest) = Some tok.
Proof.
  intros Hws Hsp Htok Htail Hq. unfold match_here, assignment.
  rewrite skip_spaces_append by exact Hws.
  rewrite Ascii.eqb_refl, Hsp, Ascii.eqb_refl. cbn [andb].
  replace (tok ++ String dquote (tail ++ String newline rest))%string
    with ((tok ++ String dquote tail) ++ String newline rest)%string
    by (now rewrite append_assoc_s).
  rewrite line_of_append.
  - now apply before_last_quote_append.
  - rewrite string_mem_app. cbn [string_mem]. rewrite Htok, Htail.
    destruct (Ascii.eqb_spec newline dquote) as [E|]; [discriminate E|reflexivity].
Qed.

Lemma re_search_token_skip (pre s : string) :
  no_marker_start pre s = true ->
  re_search_token (pre ++ s)%string = re_search_token s.
Proof.
  induction pre as [|c p IH]; intros H; [reflexivity|].
  cbn [no_marker_start] in H. apply andb_true_iff in H. destruct H as [Hp Hr].
  apply negb_true_iff in Hp.
  change (re_search_token (String c p ++ s)%string)
    with (if prefix marker (String c p ++ s)%string
          then match match_here (drop (String.length marker)
                                   (String c p ++ s)%string) with
               | Some g => Some g
               | None => re_search_token (p ++ s)%string
               end
          else re_search_token (p ++ s)%string).
  rewrite Hp. now apply IH.
Qed.

(** The pattern finds the value of the first assignment to the marker:
    when no occurrence of the marker starts before it and the marker is
    followed by blanks, an equals sign, one blank and a quoted text on a
    line that ends in a newline, the token is that text up to the last
    double quote of the line. *)
Theorem re_search_token_first pre ws sp tok tail rest :
  no_marker_start pre (marker ++ assignment ws sp tok tail rest) = true ->
  string_forallb is_space ws = true ->
  is_space sp = true ->
  string_mem newline tok = false ->
  string_mem newline tail = false ->
  string_mem dquote tail = false ->
  re_search_token (pre ++ marker ++ assignment ws sp tok tail rest)%string
  = Some tok.
Proof.
  intros Hpre Hws Hsp Htok Htail Hq.
  rewrite re_search_token_skip by exact Hpre.
  pose proof (match_here_assignment ws sp tok tail rest Hws Hsp Htok Htail Hq)
    as Hm.
  pose proof (prefix_append marker (assignment ws sp tok tail rest)) as Hp.
  pose proof (drop_append marker (assignment ws sp tok tail rest)) as Hd.
  destruct (marker ++ assignment ws sp tok tail rest)%string as [|c s] eqn:E;
    [discriminate|].
  cbn [re_search_token]. now rewrite Hp, Hd, Hm.
Qed.

(** [vendor.js] of the example device. *)
Lemma re_search_token_first_witness :
  re_search_token vendor_js = Some "k4203token".
Proof.
  apply (re_search_token_first "var " " " " "%char "k4203token" ";" "");
    reflexivity.
Defined.

(** A token the pattern finds stands in the text after the marker,
    blanks, an equals sign, one blank and a double quote, and before the
    last double quote of that line, which ends in a newline; the token
    holds no newline. *)
Theorem re_search_token_sound (s g : string) :
  re_search_token s = Some g ->
  exists pre ws sp tail rest,
    s = (pre ++ marker ++ assignment ws sp g tail rest)%string /\
    string_forallb is_space ws = true /\
    is_space sp = true /\
    string_mem newline g = false /\
    string_mem newline tail = false /\
    string_mem dquote tail = false.
Proof.
  induction s as [|c s IH]; intros H; [discriminate|].
  cbn [re_search_token] in H.
  assert (Hlater : re_search_token s = Some g ->
                   exists pre ws sp tail rest,
                     String c s = (pre ++ marker ++ assignment ws sp g tail rest)%string /\
                     string_forallb is_space ws = true /\
                     is_space sp = true /\
                     string_mem newline g = false /\
                     string_mem newline tail = false /\
                     string_mem dquote tail = false).
  { intros H'. destruct (IH H') as (pre & ws & sp & tail & rest & -> & Hrest).
    now exists (String c pre), ws, sp, tail, rest. }
  destruct (prefix marker (String c s)) eqn:Hp; [|now apply Hlater].
  destruct (match_here (drop (String.length marker) (String c s))) as [g'|] eqn:Hm;
    [|now apply Hlater].
  injection H as ->. clear Hlater IH.
  apply prefix_inv in Hp. rewrite Hp.
  unfold match_here in Hm.
  destruct (skip_spaces_inv (drop (String.length marker) (String c s)))
    as (ws & Hs & Hws).
  rewrite Hs.
  destruct (skip_spaces (drop (String.length marker) (String c s)))
    as [|e [|sp [|q r]]]; try discriminate.
  destruct (Ascii.eqb_spec e "="%char) as [->|]; [|discriminate].
  destruct (is_space sp) eqn:Hsp; [|discriminate].
  destruct (Ascii.eqb_spec q dquote) as [->|]; [|discriminate].
  cbn [andb] in Hm.
  destruct (line_of r) as [line|] eqn:Hl; [|discriminate].
  apply line_of_inv in Hl. destruct Hl as (rest & -> & Hnl).
  apply before_last_quote_inv in Hm. destruct Hm as (tail & -> & Hq).
  rewrite string_mem_app in Hnl. apply orb_false_iff in Hnl.
  destruct Hnl as [Hg Ht]. cbn [string_mem] in Ht. apply orb_false_iff in Ht.
  exists "", ws, sp, tail, rest. unfold assignment.
  rewrite append_assoc_s. cbn [append]. repeat split; tauto.
Qed.

Lemma re_search_token_sound_witness :
  exists pre ws sp tail rest,
    vendor_js = (pre ++ marker ++ assignment ws sp "k4203token" tail rest)%string /\
    string_forallb is_space ws = true /\
    is_space sp = true /\
    string_mem newline "k4203token" = false /\
    string_mem newline tail = false /\
    string_mem dquote tail = false.
Proof.
  apply (re_search_token_sound vendor_js "k4203token"). reflexivity.
Defined.

(* ================================================================= *)
(** ** Loading the configuration *)

Lemma init_inv cfg self :
  HuaweiAPI_init cfg = Ok self ->
  exists items c h codes host,
    cfg = PyDict items /\
    dict_get items "common" = Some (PyDict c) /\
    dict_get c "headers" = Some (PyDict h) /\
    dict_get c "error-codes" = Some codes /\
    dict_get h "Host" = Some (PyStr host) /\
    self = mkAPI cfg (PyDict h) codes ("http://" ++ host)
             (filter (fun kv => negb (String.eqb (fst kv) "common-headers"))
                items).
Proof.
  unfold HuaweiAPI_init, rbind, getitem. intros H.
  destruct cfg as [| | | | |items]; try discriminate.
  destruct (dict_get items "common") as [common|] eqn:Ec; [|discriminate].
  destruct common as [| | | | |c]; try discriminate.
  destruct (dict_get c "headers") as [hd|] eqn:Ehd; [|discriminate].
  destruct (dict_get c "error-codes") as [codes|] eqn:Ecodes; [|discriminate].
  destruct hd as [| | | | |h]; try discriminate.
  destruct (dict_get h "Host") as [host|] eqn:Eh; [|discriminate].
  destruct host as [| | |host| |]; try discriminate.
  simpl in H. injection H as <-.
  exists items, c, h, codes, host. repeat split; auto.
Qed.

(** [HuaweiAPI.__init__] succeeds exactly on a mapping whose [common]
    section is a mapping with an entry [error-codes] and a mapping
    [headers] whose [Host] is a string; the object then holds the base
    URL [http://] followed by the host, and as commands the top-level
    entries other than [common-headers], in their order.  When it fails,
    it fails with [TypeError] or with [KeyError] on one of the four keys
    it reads. *)
Theorem HuaweiAPI_init_spec (cfg : value) :
  (forall self,
      HuaweiAPI_init cfg = Ok self <->
      exists items c h codes host,
        cfg = PyDict items /\
        dict_get items "common" = Some (PyDict c) /\
        dict_get c "headers" = Some (PyDict h) /\
        dict_get c "error-codes" = Some codes /\
        dict_get h "Host" = Some (PyStr host) /\
        self = mkAPI cfg (PyDict h) codes ("http://" ++ host)
                 (filter (fun kv => negb (String.eqb (fst kv) "common-headers"))
                    items)) /\
  (forall e,
      HuaweiAPI_init cfg = Raise e ->
      e = TypeError \/
      In e [KeyError "common"; KeyError "headers"; KeyError "error-codes";
            KeyError "Host"]).
Proof.
  split.
  - intros self. split.
    + apply init_inv.
    + intros (items & c & h & codes & host & -> & Hc & Hh & Hcodes & Hhost & ->).
      unfold HuaweiAPI_init, rbind, getitem.
      now rewrite Hc, Hh, Hcodes, Hhost.
  - intros e. unfold HuaweiAPI_init, rbind, getitem, str_add.
    repeat match goal with
           | |- context [match dict_get ?d ?k with _ => _ end] =>
               destruct (dict_get d k)
           | |- context [match ?v with PyNone => _ | _ => _ end] => destruct v
           end;
      intros H; try discriminate H; injection H as <-; simpl; tauto.
Qed.

(** [get_error] reads the entry [error-codes] of the section [common]:
    when that entry is a mapping it raises nothing and returns the
    description of a code it holds and the fixed message for any other
    code; when the entry is no mapping, which [__init__] accepts, it
    raises [AttributeError] for every code. *)
Theorem get_error_lookup cfg self common codes (code : string) :
  HuaweiAPI_init cfg = Ok self ->
  getitem cfg "common" = Ok common ->
  getitem common "error-codes" = Ok codes ->
  (forall d, codes = PyDict d ->
             get_error self code
             = Ok (match dict_get d code with
                   | Some description => description
                   | None => PyStr "No such error code."
                   end)) /\
  (is_mapping codes = false -> get_error self code = Raise AttributeError).
Proof.
  intros Hinit Hc Hcodes.
  apply init_inv in Hinit.
  destruct Hinit as (items & c & h & codes' & host & -> & Hc' & _ & Hcodes' & _ & ->).
  simpl in Hc. rewrite Hc' in Hc. injection Hc as <-.
  simpl in Hcodes. rewrite Hcodes' in Hcodes. injection Hcodes as <-.
  unfold get_error. simpl error_codes. split.
  - intros d ->. now destruct (dict_get d code).
  - intros H. destruct codes'; try reflexivity. discriminate.
Qed.

Lemma get_error_lookup_witness :
  get_error demo_api "100003" = Ok (PyStr "No rights") /\
  get_error demo_api "100004" = Ok (PyStr "No such error code.").
Proof.
  split.
  - exact (proj1 (get_error_lookup demo_cfg demo_api _ _ "100003"
                    eq_refl eq_refl eq_refl) _ eq_refl).
  - exact (proj1 (get_error_lookup demo_cfg demo_api _ _ "100004"
                    eq_refl eq_refl eq_refl) _ eq_refl).
Defined.

(* ================================================================= *)
(** ** Requests and their calls *)

Section Requests.

Variable ET_tostring : Element -> string.
Variable ET_fromstring : string -> option Element.
Variable http : list HttpCall -> HttpCall -> option Response.
Variable date_str : string.

(** [make_request] for a POST command, with its headers. *)
Lemma make_request_post_built self name cmd u defaults h kwargs tr :
  dict_get (api_dict self) name = Some cmd ->
  getitem cmd "url" = Ok (PyStr u) ->
  getitem cmd "method" = Ok (PyStr "post") ->
  getitem cmd "request" = Ok (PyDict defaults) ->
  common_headers self = PyDict h ->
  make_request ET_tostring http self name kwargs tr =
  match get_token http self tr with
  | (Ok token, tr') =>
      (Ok (Some (mkAPIRequest requests_post (base_url self ++ u)
                   (Some (request_headers h cmd))
                   (Some (xml_declaration
                          ++ ET_tostring
                               (dict_to_xml "request"
                                  (built_fields defaults kwargs token)))%string))),
       tr')
  | (Raise e, tr') => (Raise e, tr')
  end.
Proof.
  intros Hcmd Hurl Hmeth Hreq Hh.
  destruct cmd as [| | | | |c]; try discriminate.
  unfold make_request, bind, lift, ret. rewrite Hcmd, Hurl.
  cbn [str_add]. rewrite Hmeth.
  replace (is_str (PyStr "post") "post") with true by reflexivity.
  rewrite Hreq. cbn [OrderedDict]. rewrite Hh.
  unfold request_headers, py_get, getitem, setitem, rbind, built_fields.
  destruct (dict_get c "Referer") as [r|] eqn:Er.
  - destruct (truthy r) eqn:Et;
      destruct (get_token http self tr) as [[token|e] tr']; reflexivity.
  - cbn [truthy].
    destruct (get_token http self tr) as [[token|e] tr']; reflexivity.
Qed.

(** [run_command] for a POST command: the token fetch, then the call. *)
Lemma run_command_post self name cmd u defaults h kwargs tr :
  dict_get (api_dict self) name = Some cmd ->
  getitem cmd "url" = Ok (PyStr u) ->
  getitem cmd "method" = Ok (PyStr "post") ->
  getitem cmd "request" = Ok (PyDict defaults) ->
  common_headers self = PyDict h ->
  run_command ET_tostring ET_fromstring http self name kwargs tr =
  match get_token http self tr with
  | (Ok token, tr') =>
      let call :=
        mkCall requests_post (base_url self ++ u)
          (Some (request_headers h cmd))
          (Some (xml_declaration
                 ++ ET_tostring
                      (dict_to_xml "request"
                         (built_fields defaults kwargs token)))%string) in
      (answer ET_fromstring (http tr' call), tr' ++ [call])
  | (Raise e, tr') => (Raise e, tr')
  end.
Proof.
  intros Hcmd Hurl Hmeth Hreq Hh.
  unfold run_command, bind.
  rewrite (make_request_post_built self name cmd u defaults h kwargs tr
             Hcmd Hurl Hmeth Hreq Hh).
  destruct (get_token http self tr) as [[token|e] tr']; [|reflexivity].
  unfold run, send, lift, response_to_dict, rbind, ret, answer.
  cbn [req_fun url kw_headers kw_data].
  destruct (http tr' _) as [resp|]; [|reflexivity].
  now destruct (ET_fromstring (response_text resp)).
Qed.

Lemma get_token_call self tr :
  snd (get_token http self tr) = tr ++ [token_fetch self].
Proof.
  unfold get_token, bind, send. fold (token_fetch self).
  destruct (http tr (token_fetch self)) as [vendor|]; auto.
  destruct (status_code vendor =? 200); auto.
  destruct (re_search_token (response_text vendor)); auto.
Qed.

(** A GET command: [make_request] issues no call and builds a request
    of the command's URL without headers and without a body, whatever
    the overrides; [run_command] issues that one call and returns the
    status with the decoded body, [ConnectionError] without an answer
    and [ParseError] on a body the parser refuses. *)
Theorem run_command_get self name cmd u kwargs tr :
  dict_get (api_dict self) name = Some cmd ->
  getitem cmd "url" = Ok (PyStr u) ->
  getitem cmd "method" = Ok (PyStr "get") ->
  let call := mkCall requests_get (base_url self ++ u) None None in
  make_request ET_tostring http self name kwargs tr
  = (Ok (Some (mkAPIRequest requests_get (base_url self ++ u) None None)), tr) /\
  run_command ET_tostring ET_fromstring http self name kwargs tr
  = (answer ET_fromstring (http tr call), tr ++ [call]).
Proof.
  intros Hcmd Hurl Hmeth call.
  assert (Hmk : make_request ET_tostring http self name kwargs tr
                = (Ok (Some (mkAPIRequest requests_get (base_url self ++ u)
                               None None)), tr)).
  { unfold make_request, bind, lift, ret. rewrite Hcmd, Hurl.
    cbn [str_add]. now rewrite Hmeth. }
  split; [exact Hmk|].
  unfold run_command, bind. rewrite Hmk.
  unfold run, send, lift, response_to_dict, rbind, ret, answer.
  cbn [req_fun url kw_headers kw_data]. fold call.
  destruct (http tr call) as [resp|]; [|reflexivity].
  now destruct (ET_fromstring (response_text resp)).
Qed.

(** A name that is no key of the catalog: [make_request] and
    [run_command] raise [APIError] before any call is issued, and so do
    [send_sms], [get_inbox] and [clear_inbox] when the catalog lacks the
    command they run. *)
Theorem unknown_command_raises_APIError self name kwargs content number tr :
  dict_in name (api_dict self) = false ->
  make_request ET_tostring http self name kwargs tr = (Raise APIError, tr) /\
  run_command ET_tostring ET_fromstring http self name kwargs tr
  = (Raise APIError, tr) /\
  (name = "sms" ->
   send_sms ET_tostring ET_fromstring http date_str self content number tr
   = (Raise APIError, tr)) /\
  (name = "sms-list" ->
   get_inbox ET_tostring ET_fromstring http self tr = (Raise APIError, tr) /\
   clear_inbox ET_tostring ET_fromstring http self tr = (Raise APIError, tr)).
Proof.
  intros Hin.
  assert (Hmk : forall kw, make_request ET_tostring http self name kw tr
                           = (Raise APIError, tr)).
  { intros kw. unfold make_request. unfold dict_in in Hin.
    now destruct (dict_get (api_dict self) name). }
  assert (Hrun : forall kw, run_command ET_tostring ET_fromstring http self name kw tr
                            = (Raise APIError, tr)).
  { intros kw. unfold run_command, bind. now rewrite Hmk. }
  split; [apply Hmk|]. split; [apply Hrun|]. split.
  - intros ->. unfold send_sms. apply Hrun.
  - intros ->.
    assert (Hget : get_inbox ET_tostring ET_fromstring http self tr
                   = (Raise APIError, tr)).
    { unfold get_inbox, bind. now rewrite Hrun. }
    split; [exact Hget|]. unfold clear_inbox, bind. now rewrite Hget.
Qed.

(** A POST command run by [run_command]: when the token fetch fails,
    the error is raised and the command is not sent; otherwise exactly
    two calls are issued, the fetch and then the POST, whose headers are
    the common headers with the command's [Referer] and whose body is
    the declaration followed by the encoded fields; the result is the
    status with the decoded body, [ConnectionError] without an answer
    and [ParseError] on a body the parser refuses. *)
Theorem run_command_post_calls self name cmd u defaults h kwargs tr :
  common_headers self = PyDict h ->
  dict_get (api_dict self) name = Some cmd ->
  getitem cmd "url" = Ok (PyStr u) ->
  getitem cmd "method" = Ok (PyStr "post") ->
  getitem cmd "request" = Ok (PyDict defaults) ->
  (forall e,
      fst (get_token http self tr) = Raise e ->
      run_command ET_tostring ET_fromstring http self name kwargs tr
      = (Raise e, tr ++ [token_fetch self])) /\
  (forall token,
      fst (get_token http self tr) = Ok token ->
      let call :=
        mkCall requests_post (base_url self ++ u)
          (Some (request_headers h cmd))
          (Some (xml_declaration
                 ++ ET_tostring
                      (dict_to_xml "request"
                         (built_fields defaults kwargs token)))%string) in
      run_command ET_tostring ET_fromstring http self name kwargs tr
      = (answer ET_fromstring (http (tr ++ [token_fetch self]) call),
         tr ++ [token_fetch self; call])).
Proof.
  intros Hh Hcmd Hurl Hmeth Hreq.
  rewrite (run_command_post self name cmd u defaults h kwargs tr
             Hcmd Hurl Hmeth Hreq Hh).
  pose proof (get_token_call self tr) as Htr.
  destruct (get_token http self tr) as [[tok|e0] tr']; simpl in Htr; subst tr'.
  - split; [discriminate|]. intros token Htok. simpl in Htok.
    injection Htok as ->. cbv zeta. now rewrite <- app_assoc.
  - split; [|discriminate]. intros e He. simpl in He. now injection He as ->.
Qed.

End Requests.

(** The command [sms-count] of the example catalog, answered with the
    status 200 and an error document. *)
Lemma run_command_get_witness :
  run_command tostring_plain demo_fromstring (demo_http 200 error_text)
    demo_api "sms-count" [("Index", PyInt 1)] []
  = (Ok (200, etree_to_dict error_doc),
     [mkCall requests_get "http://192.168.9.1/api/sms/sms-count" None None]).
Proof.
  exact (proj2 (run_command_get tostring_plain demo_fromstring
                  (demo_http 200 error_text) demo_api "sms-count"
                  (PyDict [("url", PyStr "/api/sms/sms-count");
                           ("method", PyStr "get")])
                  "/api/sms/sms-count" [("Index", PyInt 1)] []
                  eq_refl eq_refl eq_refl)).
Defined.

(** The example catalog has no command [sms-send]. *)
Lemma unknown_command_raises_APIError_witness :
  run_command tostring_plain demo_fromstring (demo_http 200 error_text)
    demo_api "sms-send" [] []
  = (Raise APIError, []).
Proof.
  exact (proj1 (proj2 (unknown_command_raises_APIError tostring_plain
                         demo_fromstring (demo_http 200 error_text) ""
                         demo_api "sms-send" [] "" PyNone [] eq_refl))).
Defined.

(** The command [sms-delete] of the example catalog, answered with the
    status 500: the fetch, then the POST. *)
Lemma run_command_post_calls_witness :
  run_command tostring_plain demo_fromstring (demo_http 500 error_text)
    demo_api "sms-delete" [("Index", PyInt 40007)] []
  = (Ok (500, etree_to_dict error_doc),
     [token_fetch demo_api;
      mkCall requests_post "http://192.168.9.1/api/sms/delete-sms"
        (Some (common_headers demo_api))
        (Some "<?xml version='1.0' encoding='UTF-8'?><request><Index>40007</Index><token>k4203token</token></request>")]).
Proof.
  exact (proj2 (run_command_post_calls tostring_plain demo_fromstring
                  (demo_http 500 error_text) demo_api "sms-delete"
                  (PyDict [("url", PyStr "/api/sms/delete-sms");
                           ("method", PyStr "post");
                           ("request", PyDict [("Index", PyStr "")])])
                  "/api/sms/delete-sms" [("Index", PyStr "")]
                  [("Host", PyStr "192.168.9.1"); ("Content-Type", PyStr "text/xml")]
                  [("Index", PyInt 40007)] []
                  eq_refl eq_refl eq_refl eq_refl eq_refl)
           "k4203token" eq_refl).
Defined.

(* ================================================================= *)
(** ** Sending a message and clearing the inbox *)

Section Messages.

Variable ET_tostring : Element -> string.
Variable ET_fromstring : string -> option Element.
Variable http : list HttpCall -> HttpCall -> option Response.
Variable date_str : string.


(** The loop of [clear_inbox], when every message is a mapping, every
    token fetch succeeds and every delete is answered with a body that
    parses. *)
Lemma clear_loop_deletes_each self cmd u defaults h :
  common_headers self = PyDict h ->
  dict_get (api_dict self) "sms-delete" = Some cmd ->
  getitem cmd "url" = Ok (PyStr u) ->
  getitem cmd "method" = Ok (PyStr "post") ->
  getitem cmd "request" = Ok (PyDict defaults) ->
  (forall tr', exists token, fst (get_token http self tr') = Ok token) ->
  (forall tr' c, call_url c = (base_url self ++ u)%string ->
                 exists resp tree,
                   http tr' c = Some resp /\
                   ET_fromstring (response_text resp) = Some tree) ->
  forall inbox responses tr,
    forallb is_mapping inbox = true ->
    exists more calls,
      clear_loop ET_tostring ET_fromstring http self inbox responses tr
      = (Ok (responses ++ more), tr ++ calls) /\
      List.length more = List.length inbox /\
      deleted ET_tostring ET_fromstring http self u h cmd defaults
        inbox tr more calls.
Proof.
  intros Hh Hcmd Hurl Hmeth Hreq Htok Hans.
  induction inbox as [|message rest IH]; intros responses tr Hmap.
  - exists [], []. simpl. unfold ret. rewrite !app_nil_r. auto.
  - simpl in Hmap. apply andb_true_iff in Hmap. destruct Hmap as [Hm Hrest].
    destruct message as [| | | | |md]; try discriminate.
    cbn [clear_loop]. unfold bind at 1, lift at 1.
    assert (Hidx : py_get (PyDict md) "Index" = Ok (index_of (PyDict md))).
    { unfold index_of, py_get. now destruct (dict_get md "Index"). }
    rewrite Hidx. unfold bind at 1.
    rewrite (run_command_post ET_tostring ET_fromstring http self "sms-delete"
               cmd u defaults h [("Index", index_of (PyDict md))] tr
               Hcmd Hurl Hmeth Hreq Hh).
    destruct (Htok tr) as [token Ht].
    pose proof (get_token_call http self tr) as Htr.
    destruct (get_token http self tr) as [[tok|e] tr1] eqn:Eg;
      simpl in Ht, Htr; [|discriminate]. injection Ht as ->. subst tr1.
    cbv zeta.
    fold (delete_call ET_tostring self u h cmd defaults (PyDict md) token).
    destruct (Hans (tr ++ [token_fetch self])
                (delete_call ET_tostring self u h cmd defaults (PyDict md) token)
                eq_refl) as (resp & tree & Hresp & Htree).
    assert (Hanswer :
              answer ET_fromstring
                (http (tr ++ [token_fetch self])
                   (delete_call ET_tostring self u h cmd defaults (PyDict md)
                      token))
              = Ok (status_code resp, etree_to_dict tree)).
    { unfold answer. now rewrite Hresp, Htree. }
    rewrite Hanswer.
    destruct (IH (responses ++ [(status_code resp, etree_to_dict tree)])
                ((tr ++ [token_fetch self])
                 ++ [delete_call ET_tostring self u h cmd defaults (PyDict md)
                       token]) Hrest)
      as (more & calls & Hloop & Hlen & Hdel).
    exists ((status_code resp, etree_to_dict tree) :: more),
      (token_fetch self
         :: delete_call ET_tostring self u h cmd defaults (PyDict md) token
         :: calls).
    rewrite Hloop. split; [|split].
    + f_equal.
      * now rewrite <- app_assoc.
      * now rewrite <- !app_assoc.
    + simpl. now rewrite Hlen.
    + cbn [deleted]. exists token, calls. rewrite Eg.
      split; [reflexivity|]. split; [exact Hanswer|]. split; [reflexivity|].
      now rewrite <- app_assoc in Hdel.
Qed.

(** [clear_inbox], when every message of the inbox is a mapping, every
    token fetch succeeds and every delete is answered with a body that
    parses: after the listing it issues, for each message in inbox order,
    one token fetch and then one POST of [sms-delete] whose override is
    the [Index] of that message and whose token is the one just fetched;
    it returns, in that order, the status and the decoded body of the
    answer to each of these POSTs, whatever the status is. *)
Theorem clear_inbox_deletes_each self cmd u defaults h inbox tr tr1 :
  common_headers self = PyDict h ->
  dict_get (api_dict self) "sms-delete" = Some cmd ->
  getitem cmd "url" = Ok (PyStr u) ->
  getitem cmd "method" = Ok (PyStr "post") ->
  getitem cmd "request" = Ok (PyDict defaults) ->
  (forall tr', exists token, fst (get_token http self tr') = Ok token) ->
  (forall tr' c, call_url c = (base_url self ++ u)%string ->
                 exists resp tree,
                   http tr' c = Some resp /\
                   ET_fromstring (response_text resp) = Some tree) ->
  get_inbox ET_tostring ET_fromstring http self tr = (Ok inbox, tr1) ->
  forallb is_mapping inbox = true ->
  exists responses calls,
    clear_inbox ET_tostring ET_fromstring http self tr
    = (Ok responses, tr1 ++ calls) /\
    List.length responses = List.length inbox /\
    deleted ET_tostring ET_fromstring http self u h cmd defaults
      inbox tr1 responses calls.
Proof.
  intros Hh Hcmd Hurl Hmeth Hreq Htok Hans Hget Hmap.
  destruct (clear_loop_deletes_each self cmd u defaults h
              Hh Hcmd Hurl Hmeth Hreq Htok Hans inbox [] tr1 Hmap)
    as (more & calls & Hloop & Hlen & Hdel).
  exists more, calls. unfold clear_inbox, bind. rewrite Hget.
  now rewrite Hloop.
Qed.

(** [get_inbox], from the decoded entry [Messages] of the answer. *)
Lemma get_inbox_entry self tr tr' x rc rcs :
  run_command ET_tostring ET_fromstring http self "sms-list" [] tr
  = (Ok (200, etree_to_dict (mkElement "response" x (rc :: rcs))), tr') ->
  get_inbox ET_tostring ET_fromstring http self tr
  = match entry_of (tagged "Messages" (rc :: rcs)) with
    | Some (PyDict md) =>
        match dict_get md "Message" with
        | Some (PyList l) => (Ok l, tr')
        | Some m => (Ok [m], tr')
        | None => (Ok [PyNone], tr')
        end
    | _ => (Ok [], tr')
    end.
Proof.
  intros Hrun.
  destruct (decode_tie_break "response" x rc rcs) as (sub & Hdoc & _ & Hsub).
  unfold get_inbox, bind. rewrite Hrun. cbn [fst snd]. rewrite Hdoc.
  unfold lift, ret. cbn [getitem dict_get].
  rewrite String.eqb_refl. unfold py_get. rewrite (Hsub "Messages").
  destruct (entry_of (tagged "Messages" (rc :: rcs))) as [v|]; [|reflexivity].
  destruct v as [| | | | |md]; try reflexivity.
  destruct (dict_get md "Message") as [m|]; [|reflexivity].
  destruct m; reflexivity.
Qed.

(** When the one [Messages] element of the answer has children but none
    named [Message], [get_inbox] returns a sequence that holds [None]
    alone, and [clear_inbox] raises [AttributeError] on it after the
    listing, before any delete. *)
Theorem get_inbox_without_message self tr tr' x rc rcs messages mc mcs :
  run_command ET_tostring ET_fromstring http self "sms-list" [] tr
  = (Ok (200, etree_to_dict (mkElement "response" x (rc :: rcs))), tr') ->
  tagged "Messages" (rc :: rcs) = [messages] ->
  getchildren messages = mc :: mcs ->
  tagged "Message" (mc :: mcs) = [] ->
  get_inbox ET_tostring ET_fromstring http self tr = (Ok [PyNone], tr') /\
  clear_inbox ET_tostring ET_fromstring http self tr
  = (Raise AttributeError, tr').
Proof.
  intros Hrun Hone Hch Hnone.
  assert (Hget : get_inbox ET_tostring ET_fromstring http self tr
                 = (Ok [PyNone], tr')).
  { rewrite (get_inbox_entry self tr tr' x rc rcs Hrun), Hone.
    simpl entry_of. destruct messages as [t0 x0 ch]. simpl in Hch. subst ch.
    destruct (decode_tie_break t0 x0 mc mcs) as (md & _ & Hv & Hmd).
    now rewrite Hv, (Hmd "Message"), Hnone. }
  split; [exact Hget|].
  unfold clear_inbox, bind. now rewrite Hget.
Qed.

End Messages.


(** The inbox of two messages of the example device, each delete
    answered with the status 500 and an error document: two results of
    that status and body, and for each message a fetch and a delete. *)
Lemma clear_inbox_deletes_each_witness :
  exists responses calls,
    clear_inbox tostring_plain demo_fromstring inbox_then_errors demo_api []
    = (Ok responses,
       snd (get_inbox tostring_plain demo_fromstring inbox_then_errors
              demo_api [])
       ++ calls) /\
    List.length responses = 2%nat /\
    deleted tostring_plain demo_fromstring inbox_then_errors demo_api
      "/api/sms/delete-sms"
      [("Host", PyStr "192.168.9.1"); ("Content-Type", PyStr "text/xml")]
      (PyDict [("url", PyStr "/api/sms/delete-sms");
               ("method", PyStr "post");
               ("request", PyDict [("Index", PyStr "")])])
      [("Index", PyStr "")]
      [PyDict [("Index", PyStr "40007"); ("Content", PyStr "Test")];
       PyDict [("Index", PyStr "40008"); ("Content", PyStr "Again")]]
      (snd (get_inbox tostring_plain demo_fromstring inbox_then_errors
              demo_api []))
      responses calls.
Proof.
  apply (clear_inbox_deletes_each tostring_plain demo_fromstring
           inbox_then_errors demo_api
           (PyDict [("url", PyStr "/api/sms/delete-sms");
                    ("method", PyStr "post");
                    ("request", PyDict [("Index", PyStr "")])])
           "/api/sms/delete-sms" [("Index", PyStr "")]
           [("Host", PyStr "192.168.9.1"); ("Content-Type", PyStr "text/xml")]
           [PyDict [("Index", PyStr "40007"); ("Content", PyStr "Test")];
            PyDict [("Index", PyStr "40008"); ("Content", PyStr "Again")]]
           []); try reflexivity.
  - intros tr'. exists "k4203token". reflexivity.
  - intros tr' c Hurl. exists (mkResponse 500 error_text), error_doc.
    unfold inbox_then_errors. rewrite Hurl. split; reflexivity.
Defined.

(** What [clear_inbox] returns on that device. *)
Lemma clear_inbox_on_failing_deletes :
  fst (clear_inbox tostring_plain demo_fromstring inbox_then_errors demo_api [])
  = Ok [(500, etree_to_dict error_doc); (500, etree_to_dict error_doc)].
Proof. reflexivity. Qed.

(** The answer without [Message] of the examples. *)
Lemma get_inbox_without_message_witness :
  fst (get_inbox tostring_plain odd_fromstring (demo_http 200 odd_inbox_text)
         demo_api [])
  = Ok [PyNone] /\
  fst (clear_inbox tostring_plain odd_fromstring (demo_http 200 odd_inbox_text)
         demo_api [])
  = Raise AttributeError.
Proof.
  destruct (get_inbox_without_message tostring_plain odd_fromstring
              (demo_http 200 odd_inbox_text) demo_api [] _ None
              (mkElement "Count" (Some "0") []) _
              (mkElement "Messages" None [mkElement "Count" (Some "0") []])
              (mkElement "Count" (Some "0") []) []
              eq_refl eq_refl eq_refl eq_refl) as [Hget Hclear].
  rewrite Hget, Hclear. split; reflexivity.
Defined.

(* ================================================================= *)
(** ** The two engines *)

Section TwoEngines.

Variable ET_tostring : Element -> string.
Variable ET_fromstring : string -> option Element.
Variable http : list HttpCall -> HttpCall -> option Response.

(** The script fetches the token from the fixed address 192.168.9.1,
    whatever host is configured.  For a configuration whose host is that
    address, [make_request] of [huawei-sms.py] builds the request, raises
    the error and issues the calls of [make_request] of [huaweisms.py],
    and [run_command] differs from the library's by the decoder alone. *)
Theorem script_engine_agrees self name kwargs tr :
  base_url self = "http://192.168.9.1" ->
  snd (ScriptEngine.get_token http tr)
  = tr ++ [mkCall requests_get "http://192.168.9.1/html/js/vendor.js" None None] /\
  ScriptEngine.make_request ET_tostring http self name kwargs tr
  = make_request ET_tostring http self name kwargs tr /\
  (forall r tr1 resp tree,
      make_request ET_tostring http self name kwargs tr = (Ok (Some r), tr1) ->
      http tr1 (mkCall (req_fun r) (url r) (kw_headers r) (kw_data r)) = Some resp ->
      ET_fromstring (response_text resp) = Some tree ->
      ScriptEngine.run_command ET_tostring ET_fromstring http self name kwargs tr
      = (Ok (status_code resp, Script.etree_to_dict tree),
         tr1 ++ [mkCall (req_fun r) (url r) (kw_headers r) (kw_data r)])).
Proof.
  intros Hb.
  assert (Hgt : ScriptEngine.get_token http = get_token http self).
  { unfold ScriptEngine.get_token, get_token. now rewrite Hb. }
  assert (Hmk : ScriptEngine.make_request ET_tostring http self name kwargs tr
                = make_request ET_tostring http self name kwargs tr).
  { unfold ScriptEngine.make_request, make_request. now rewrite Hgt. }
  split; [|split; [exact Hmk|]].
  - unfold ScriptEngine.get_token, bind, send.
    destruct (http tr _) as [vendor|]; auto.
    destruct (status_code vendor =? 200); auto.
    destruct (re_search_token (response_text vendor)); auto.
  - intros r tr1 resp tree Hreq Hresp Htree.
    unfold ScriptEngine.run_command, bind. rewrite Hmk, Hreq.
    unfold run, send. rewrite Hresp.
    unfold lift, ScriptEngine.response_to_dict, rbind, ret. now rewrite Htree.
Qed.

End TwoEngines.

(** The example catalog names the fixed address as its host. *)
Lemma script_engine_agrees_witness :
  ScriptEngine.make_request tostring_plain (demo_http 200 "") demo_api
    "sms-delete" [("Index", PyInt 40007)] []
  = make_request tostring_plain (demo_http 200 "") demo_api
      "sms-delete" [("Index", PyInt 40007)] [].
Proof.
  exact (proj1 (proj2 (script_engine_agrees tostring_plain demo_fromstring
                         (demo_http 200 "") demo_api "sms-delete"
                         [("Index", PyInt 40007)] [] eq_refl))).
Defined.
